(** * Gitleaks-Pipeline: the result transformation and error classification
      pipeline of [src/transform_results.py], embedded as a state-and-exit
      monad over an explicit model of the process environment. *)

From Stdlib Require Import ZArith Bool List Ascii String DecimalString.
From stdpp Require Import gmap strings list.

Local Open Scope string_scope.
Local Open Scope list_scope.
Local Open Scope Z_scope.

(** ** Python text primitives used by the pipeline *)

Module PyStr.

(** Characters are code points below 256.  [str.isspace] holds there for
    TAB..CR, FS..US, SPACE, NEL (0x85) and NBSP (0xA0). *)
Definition is_space (c : ascii) : bool :=
  let n := N_of_ascii c in
  ((9 <=? n) && (n <=? 13) || (28 <=? n) && (n <=? 32)
   || (n =? 133) || (n =? 160))%N.

Definition newline : ascii := ascii_of_N 10.

Definition is_empty (s : string) : bool :=
  match s with EmptyString => true | String _ _ => false end.

Fixpoint lstrip (s : string) : string :=
  match s with
  | EmptyString => EmptyString
  | String c s' => if is_space c then lstrip s' else s
  end.

Fixpoint rstrip (s : string) : string :=
  match s with
  | EmptyString => EmptyString
  | String c s' =>
      let r := rstrip s' in
      if is_space c && is_empty r then EmptyString else String c r
  end.

(** [s.strip()] *)
Definition strip (s : string) : string := rstrip (lstrip s).

(** [s.split('\n')[0]] *)
Fixpoint first_line (s : string) : string :=
  match s with
  | EmptyString => EmptyString
  | String c s' =>
      if Ascii.eqb c newline then EmptyString else String c (first_line s')
  end.

(** [kw in s] *)
Fixpoint contains (kw s : string) : bool :=
  String.prefix kw s
  || match s with
     | EmptyString => false
     | String _ s' => contains kw s'
     end.

(** [any(keyword in s for keyword in kws)] *)
Definition any_in (kws : list string) (s : string) : bool :=
  existsb (fun keyword => contains keyword s) kws.

(** [x in l] on a list of strings *)
Definition mem (x : string) (l : list string) : bool :=
  existsb (String.eqb x) l.

(** [l.remove(x)] when [x] occurs: the first occurrence goes. *)
Fixpoint remove_first (x : string) (l : list string) : list string :=
  match l with
  | [] => []
  | y :: l' => if String.eqb x y then l' else y :: remove_first x l'
  end.

(** [str(n)] for an integer *)
Definition of_Z (z : Z) : string := NilZero.string_of_int (Z.to_int z).

End PyStr.

(** ** JSON values as [json.load] returns them *)

#[warnings="-register-all"]
Inductive json : Type :=
| JNull
| JBool (b : bool)
| JInt (z : Z)
| JFloat (repr : string)      (* a float, kept as the text Python prints for it *)
| JStr (s : string)
| JArr (items : list json)
| JObj (members : list (string * json)).

(** [d.get(key, default)] on the members of a dict (a dict holds each key
    once) *)
Fixpoint dict_get (key : string) (members : list (string * json)) (default : json) : json :=
  match members with
  | [] => default
  | (k, v) :: rest => if String.eqb key k then v else dict_get key rest default
  end.

(** ** Exceptions, process environment and the program monad *)

Inductive exn : Type :=
| JSONDecodeError
| AttributeError
| TypeError
| ValidationError
| OSError (detail : string)
| CalledProcessError (captured_stderr : string).

(** The part of the file system the process can observe: the text of every
    existing (readable) file, and for each path the exception that opening
    it for writing raises, if any. *)
Record fsys : Type := {
  files : gmap string string;
  wfault : string -> option exn
}.

Inductive child_result : Type :=
| ChildExit0
| ChildNonZero (captured_stderr : string)
| ChildNotStarted (e : exn).

(** What the run time and the operating system supply. *)
Class Platform : Type := {
  json_loads : string -> option json;   (* [json.load]; [None]: JSONDecodeError *)
  json_dumps : json -> string;          (* [json.dumps(_, indent=4)] *)
  py_repr : json -> string;             (* [str()] of a list or a dict *)
  exn_str : exn -> string;              (* [str(e)] *)
  strftime_now : nat -> string;         (* the formatted clock at its n-th reading *)
  spawn : list string -> fsys -> child_result * fsys
}.

Record world : Type := {
  argv : list string;        (* sys.argv *)
  fs : fsys;
  stdout : list string;      (* one entry per [print] *)
  stderr : list string;      (* one entry per [sys.stderr.write] *)
  ticks : nat                (* clock readings so far *)
}.

Inductive outcome (A : Type) : Type :=
| Ret (a : A)              (* the call returns *)
| Exit (code : Z)          (* SystemExit(code) is propagating *)
| Raise (e : exn).         (* an exception is propagating *)
Arguments Ret {A} a.
Arguments Exit {A} code.
Arguments Raise {A} e.

Definition prog (A : Type) : Type := world -> outcome A * world.

Definition ret {A} (a : A) : prog A := fun w => (Ret a, w).

Definition bind {A B} (m : prog A) (k : A -> prog B) : prog B :=
  fun w =>
    match m w with
    | (Ret a, w') => k a w'
    | (Exit c, w') => (Exit c, w')
    | (Raise e, w') => (Raise e, w')
    end.

Declare Scope prog_scope.
Delimit Scope prog_scope with prog.
Notation "x <- m ;; k" := (bind m (fun x => k))
  (at level 100, m at next level, k at level 200, right associativity) : prog_scope.
Notation "m ;; k" := (bind m (fun _ => k))
  (at level 100, k at level 200, right associativity) : prog_scope.
Local Open Scope prog_scope.

Definition sys_exit {A} (code : Z) : prog A := fun w => (Exit code, w).
Definition raise {A} (e : exn) : prog A := fun w => (Raise e, w).

(** [if c: body] *)
Definition when (c : bool) (body : prog unit) : prog unit :=
  if c then body else ret tt.

(** [try: body / except <class> as e: handler]; [handler e = None] when [e]
    is not of the class.  SystemExit is never caught. *)
Definition try_except {A} (body : prog A) (handler : exn -> option (prog A)) : prog A :=
  fun w =>
    match body w with
    | (Raise e, w') =>
        match handler e with
        | Some h => h w'
        | None => (Raise e, w')
        end
    | r => r
    end.

Definition get_argv : prog (list string) := fun w => (Ret (argv w), w).

Definition set_argv (a : list string) : prog unit :=
  fun w => (Ret tt, {| argv := a; fs := fs w; stdout := stdout w;
                       stderr := stderr w; ticks := ticks w |}).

Definition print (line : string) : prog unit :=
  fun w => (Ret tt, {| argv := argv w; fs := fs w; stdout := stdout w ++ [line];
                       stderr := stderr w; ticks := ticks w |}).

Definition stderr_write (text : string) : prog unit :=
  fun w => (Ret tt, {| argv := argv w; fs := fs w; stdout := stdout w;
                       stderr := stderr w ++ [text]; ticks := ticks w |}).

Definition set_fs (w : world) (f : fsys) : world :=
  {| argv := argv w; fs := f; stdout := stdout w; stderr := stderr w; ticks := ticks w |}.

(** [os.path.exists(path)] *)
Definition path_exists (path : string) : prog bool :=
  fun w => (Ret (bool_decide (is_Some (files (fs w) !! path))), w).

(** [with open(path, 'r') as file: file.read()] *)
Definition open_read (path : string) : prog string :=
  fun w =>
    match files (fs w) !! path with
    | Some text => (Ret text, w)
    | None => (Raise (OSError path), w)
    end.

(** [with open(path, 'w') as file: file.write(text)] *)
Definition open_write (path text : string) : prog unit :=
  fun w =>
    match wfault (fs w) path with
    | Some e => (Raise e, w)
    | None =>
        (Ret tt, set_fs w {| files := <[path := text]> (files (fs w));
                             wfault := wfault (fs w) |})
    end.

(** ** The program: [src/transform_results.py] *)

Inductive ExitCodes : Type :=
| SUCCESS
| ARGUMENT_OR_FLAG_ERROR
| COMMAND_ERROR
| FILE_NOT_FOUND
| NO_FINDINGS
| NO_GIT_FOLDER.

Definition value (c : ExitCodes) : Z :=
  match c with
  | SUCCESS => 0
  | ARGUMENT_OR_FLAG_ERROR => 1
  | COMMAND_ERROR => 2
  | FILE_NOT_FOUND => 3
  | NO_FINDINGS => 4
  | NO_GIT_FOLDER => 5
  end.

Record ReportFile : Type := {
  base_name : string;
  extension : string;
  timestamp : string
}.

Definition generate_filename (self : ReportFile) : string :=
  base_name self +:+ "_" +:+ timestamp self +:+ extension self.

Record GitleaksResultItem : Type := {
  filename : string;
  line_range : string;
  description : string
}.

Record GitleaksResults : Type := {
  findings : list GitleaksResultItem
}.

(** The dict the comprehension of [transform_results] builds for one item:
    [filename] and [description] hold whatever [item.get] returned,
    [line_range] is already formatted text. *)
Record finding_dict : Type := {
  fd_filename : json;
  fd_line_range : string;
  fd_description : json
}.

(** A field annotated [str] accepts a string and nothing else. *)
Definition validate_str (v : json) : option string :=
  match v with
  | JStr s => Some s
  | _ => None
  end.

Definition validate_item (d : finding_dict) : option GitleaksResultItem :=
  match validate_str (fd_filename d), validate_str (fd_description d) with
  | Some f, Some ds =>
      Some {| filename := f; line_range := fd_line_range d; description := ds |}
  | _, _ => None
  end.

Fixpoint validate_items (ds : list finding_dict) : option (list GitleaksResultItem) :=
  match ds with
  | [] => Some []
  | d :: rest =>
      match validate_item d, validate_items rest with
      | Some i, Some is_ => Some (i :: is_)
      | _, _ => None
      end
  end.

(** [result.model_dump()] *)
Definition item_dump (i : GitleaksResultItem) : json :=
  JObj [("filename", JStr (filename i));
        ("line_range", JStr (line_range i));
        ("description", JStr (description i))].

Definition model_dump (r : GitleaksResults) : json :=
  JObj [("findings", JArr (map item_dump (findings r)))].

(** The ErrorReport dict of [write_error_message] *)
Definition error_report (error_code : Z) (error_message : string) : json :=
  JObj [("exit_code", JInt error_code); ("error_message", JStr error_message)].

Definition usage_message : string :=
  "Usage: docker run --rm -v $(pwd):/code gitleaks-pipeline <gitleaks-args>"
  +:+ String PyStr.newline
  "Example: docker run --rm -v $(pwd):/code/ gitleaks-pipeline detect --no-git".

Definition no_findings_message : string :=
  "No findings detected. Ensure all repository files are correctly placed in your project's main directory for accurate scanning!".

Definition no_git_message : string :=
  "No .git folder found. Ensure you are in the root directory of the repository or add the flag '--no-git'".

Section Pipeline.
Context {P : Platform}.

(** What an f-string field [{v}] prints for a value read from JSON. *)
Definition py_str (v : json) : string :=
  match v with
  | JNull => "None"
  | JBool true => "True"
  | JBool false => "False"
  | JInt z => PyStr.of_Z z
  | JFloat r => r
  | JStr s => s
  | JArr _ | JObj _ => py_repr v
  end.

(** [for item in v]: a list yields its elements, a dict its keys, a string
    its characters; anything else is not iterable. *)
Definition py_iter (v : json) : option (list json) :=
  match v with
  | JArr items => Some items
  | JObj members => Some (map (fun kv => JStr (fst kv)) members)
  | JStr s => Some (map (fun c => JStr (String c EmptyString)) (list_ascii_of_string s))
  | _ => None
  end.

(** One round of the comprehension; only a dict has [.get]. *)
Definition finding_of_item (item : json) : option finding_dict :=
  match item with
  | JObj m =>
      Some {| fd_filename := dict_get "File" m (JStr "unknown");
              fd_line_range :=
                py_str (dict_get "StartLine" m (JStr "unknown")) +:+ "-"
                +:+ py_str (dict_get "EndLine" m (JStr "unknown"));
              fd_description := dict_get "Description" m (JStr "No description provided") |}
  | _ => None
  end.

Fixpoint findings_of_items (items : list json) : option (list finding_dict) :=
  match items with
  | [] => Some []
  | item :: rest =>
      match finding_of_item item with
      | None => None
      | Some d =>
          match findings_of_items rest with
          | None => None
          | Some ds => Some (d :: ds)
          end
      end
  end.

Definition build_findings (gitleaks_output : json) : prog (list finding_dict) :=
  match py_iter gitleaks_output with
  | None => raise TypeError
  | Some items =>
      match findings_of_items items with
      | None => raise AttributeError
      | Some ds => ret ds
      end
  end.

Definition json_load (text : string) : prog json :=
  match json_loads text with
  | Some v => ret v
  | None => raise JSONDecodeError
  end.

(** [GitleaksResults(findings=findings)] *)
Definition GitleaksResults_new (ds : list finding_dict) : prog GitleaksResults :=
  match validate_items ds with
  | Some is_ => ret {| findings := is_ |}
  | None => raise ValidationError
  end.

(** [datetime.now().strftime("%Y-%m-%d_%H:%M:%S")] *)
Definition now_strftime : prog string :=
  fun w => (Ret (strftime_now (ticks w)),
            {| argv := argv w; fs := fs w; stdout := stdout w;
               stderr := stderr w; ticks := S (ticks w) |}).

Definition create_with_timestamp (base_name extension : string) : prog ReportFile :=
  timestamp <- now_strftime ;;
  ret {| base_name := base_name; extension := extension; timestamp := timestamp |}.

(** [subprocess.run(args, check=check, ...)] *)
Definition subprocess_run (args : list string) (check : bool) : prog unit :=
  fun w =>
    let '(r, f) := spawn args (fs w) in
    match r with
    | ChildExit0 => (Ret tt, set_fs w f)
    | ChildNonZero e =>
        if check then (Raise (CalledProcessError e), set_fs w f)
        else (Ret tt, set_fs w f)
    | ChildNotStarted e => (Raise e, set_fs w f)
    end.

Definition write_error_message (error_message : string) (error_code : Z)
    (report_file : string) : prog unit :=
  try_except
    (open_write report_file (json_dumps (error_report error_code error_message)))
    (fun e => Some (print ("Error writing to output file: " +:+ exn_str e) ;;
                    sys_exit error_code)) ;;
  print ("[!] Please check the output file for more details: " +:+ report_file) ;;
  sys_exit error_code.

Definition run_gitleaks (command_args : list string) (report_file : string) : prog unit :=
  try_except
    (subprocess_run command_args true)
    (fun e =>
       match e with
       | CalledProcessError e_stderr =>
           Some (
             let error_message := PyStr.strip e_stderr in
             let error_message := PyStr.first_line error_message in
             when (PyStr.any_in ["unknown flag:"; "flag needs an argument:"] error_message)
               (write_error_message error_message (value COMMAND_ERROR) report_file) ;;
             when (PyStr.any_in ["unknown command"; "for more information about a command."]
                     error_message)
               (write_error_message error_message (value ARGUMENT_OR_FLAG_ERROR) report_file) ;;
             when (PyStr.contains "could not create Git cmd" e_stderr)
               (write_error_message no_git_message (value NO_GIT_FOLDER) report_file) ;;
             sys_argv <- get_argv ;;
             when (PyStr.mem "--verbose" sys_argv || PyStr.mem "-v" sys_argv)
               (stderr_write e_stderr))
       | _ => None
       end).

Definition transform_results (report_path : string) : prog unit :=
  present <- path_exists report_path ;;
  when (negb present)
    (write_error_message "Gitleaks report file not found" (value FILE_NOT_FOUND) report_path) ;;
  text <- open_read report_path ;;
  gitleaks_output <- json_load text ;;
  findings <- build_findings gitleaks_output ;;
  when (match findings with [] => true | _ => false end)
    (write_error_message no_findings_message (value NO_FINDINGS) report_path) ;;
  result <- GitleaksResults_new findings ;;
  print (json_dumps (model_dump result)) ;;
  report_file <- create_with_timestamp "transformed_report" ".json" ;;
  let transformed_report_file := generate_filename report_file in
  open_write transformed_report_file (json_dumps (model_dump result)).

Definition check_args (report_file : string) : prog string :=
  sys_argv <- get_argv ;;
  when (Nat.ltb (length sys_argv) 2)
    (write_error_message usage_message (value COMMAND_ERROR) report_file) ;;
  sys_argv <- get_argv ;;
  when (PyStr.mem "--help" sys_argv || PyStr.mem "-h" sys_argv)
    (subprocess_run ["gitleaks"; "--help"] false ;; sys_exit 0) ;;
  sys_argv <- get_argv ;;
  when (negb (PyStr.mem "--report-path" sys_argv))
    (set_argv (sys_argv ++ ["--report-path"; report_file])) ;;
  sys_argv <- get_argv ;;
  when (PyStr.mem "--config" sys_argv)
    (set_argv (sys_argv ++ ["--config"; "src/gitleaks.toml"])) ;;
  sys_argv <- get_argv ;;
  when (PyStr.mem "gitleaks" (tail sys_argv))
    (set_argv (PyStr.remove_first "gitleaks" sys_argv)) ;;
  ret report_file.

Definition main : prog unit :=
  rf <- create_with_timestamp "report" ".json" ;;
  let report_file := generate_filename rf in
  report_file <- check_args report_file ;;
  sys_argv <- get_argv ;;
  let command_args := "gitleaks" :: tail sys_argv in
  run_gitleaks command_args report_file ;;
  transform_results report_file.

End Pipeline.

(** ** Derived descriptions used in the statements *)

Definition notice_line (report_file : string) : string :=
  "[!] Please check the output file for more details: " +:+ report_file.

Definition write_failure_line {P : Platform} (e : exn) : string :=
  "Error writing to output file: " +:+ exn_str e.

(** The world the Error Reporter leaves behind. *)
Definition reported {P : Platform} (error_message : string) (error_code : Z)
    (report_file : string) (w : world) : world :=
  match wfault (fs w) report_file with
  | None =>
      {| argv := argv w;
         fs := {| files := <[report_file := json_dumps (error_report error_code error_message)]>
                             (files (fs w));
                  wfault := wfault (fs w) |};
         stdout := stdout w ++ [notice_line report_file];
         stderr := stderr w;
         ticks := ticks w |}
  | Some e =>
      {| argv := argv w;
         fs := fs w;
         stdout := stdout w ++ [write_failure_line e];
         stderr := stderr w;
         ticks := ticks w |}
  end.

(** The single-line diagnostic [run_gitleaks] classifies. *)
Definition diagnostic (e_stderr : string) : string :=
  PyStr.first_line (PyStr.strip e_stderr).

(** The three checks of [run_gitleaks] in source order: whether the check
    matches, and the exit code and message it hands to the Error Reporter. *)
Definition classification_checks (e_stderr : string) : list (bool * (Z * string)) :=
  [ (PyStr.any_in ["unknown flag:"; "flag needs an argument:"] (diagnostic e_stderr),
     (value COMMAND_ERROR, diagnostic e_stderr));
    (PyStr.any_in ["unknown command"; "for more information about a command."]
       (diagnostic e_stderr),
     (value ARGUMENT_OR_FLAG_ERROR, diagnostic e_stderr));
    (PyStr.contains "could not create Git cmd" e_stderr,
     (value NO_GIT_FOLDER, no_git_message)) ].

Definition matching_checks (e_stderr : string) : list (Z * string) :=
  map snd (List.filter fst (classification_checks e_stderr)).

Definition first_match (e_stderr : string) : option (Z * string) :=
  head (matching_checks e_stderr).

(** Follows the spec's words (section 4.1, step 3): with several matching
    checks, the last one decides the report and the exit code. *)
Definition spec_last_match (e_stderr : string) : option (Z * string) :=
  last (matching_checks e_stderr).

Definition verbose_requested (sys_argv : list string) : bool :=
  PyStr.mem "--verbose" sys_argv || PyStr.mem "-v" sys_argv.

(** Follows the spec's words (section 6): the configuration-file flag is
    supplied with no value when no token, or another flag, follows it. *)
Fixpoint spec_config_lacks_value (args : list string) : bool :=
  match args with
  | [] => false
  | x :: rest =>
      String.eqb x "--config"
      && match rest with
         | [] => true
         | y :: _ => String.prefix "-" y
         end
      || spec_config_lacks_value rest
  end.

(** A raw finding as the scanner emits it: an object whose [File] and
    [Description], when present, are strings. *)
Definition str_or_absent (key : string) (m : list (string * json)) : bool :=
  match dict_get key m (JStr "") with
  | JStr _ => true
  | _ => false
  end.

Definition raw_finding_shaped (item : json) : bool :=
  match item with
  | JObj m => str_or_absent "File" m && str_or_absent "Description" m
  | _ => false
  end.

(** What one raw finding with members [m] becomes. *)
Definition condensed_from {P : Platform} (m : list (string * json))
    (r : GitleaksResultItem) : Prop :=
  JStr (filename r) = dict_get "File" m (JStr "unknown")
  /\ line_range r
     = py_str (dict_get "StartLine" m (JStr "unknown")) +:+ "-"
       +:+ py_str (dict_get "EndLine" m (JStr "unknown"))
  /\ JStr (description r) = dict_get "Description" m (JStr "No description provided").

(** [w] with [sys.argv] replaced *)
Definition with_argv (w : world) (a : list string) : world :=
  {| argv := a; fs := fs w; stdout := stdout w; stderr := stderr w; ticks := ticks w |}.

(** [w] after the child process ran and, when asked for, its error text was
    echoed *)
Definition after_child (w : world) (f : fsys) (echo : list string) : world :=
  {| argv := argv w; fs := f; stdout := stdout w; stderr := stderr w ++ echo;
     ticks := ticks w |}.

(** [w] after one more reading of the clock *)
Definition tick (w : world) : world :=
  {| argv := argv w; fs := fs w; stdout := stdout w; stderr := stderr w;
     ticks := S (ticks w) |}.

(** The argument list [check_args] leaves in [sys.argv] when it returns. *)
Definition prepared_argv (report_file : string) (a : list string) : list string :=
  let a1 := if PyStr.mem "--report-path" a then a else a ++ ["--report-path"; report_file] in
  let a2 := if PyStr.mem "--config" a1 then a1 ++ ["--config"; "src/gitleaks.toml"] else a1 in
  if PyStr.mem "gitleaks" (tail a2) then PyStr.remove_first "gitleaks" a2 else a2.

(** ** A small platform on which the pipeline can be run *)

Module Demo.

Definition dquote : string := String (ascii_of_N 34) EmptyString.
Definition backslash : string := String (ascii_of_N 92) EmptyString.

(** JSON string escapes for quote, backslash, newline, carriage return and
    tab; other characters are copied. *)
Fixpoint escape (s : string) : string :=
  match s with
  | EmptyString => EmptyString
  | String c s' =>
      let n := N_of_ascii c in
      (if (n =? 34)%N then backslash +:+ dquote
       else if (n =? 92)%N then backslash +:+ backslash
       else if (n =? 10)%N then backslash +:+ "n"
       else if (n =? 13)%N then backslash +:+ "r"
       else if (n =? 9)%N then backslash +:+ "t"
       else String c EmptyString) +:+ escape s'
  end.

Definition quoted (s : string) : string := dquote +:+ escape s +:+ dquote.

Fixpoint indent (level : nat) : string :=
  match level with
  | O => EmptyString
  | S n => "    " +:+ indent n
  end.

Definition nl : string := String PyStr.newline EmptyString.

Fixpoint join_lines (parts : list string) : string :=
  match parts with
  | [] => EmptyString
  | [p] => p
  | p :: rest => p +:+ "," +:+ nl +:+ join_lines rest
  end.

(** Pretty printer with four-space indentation. *)
Fixpoint dumps_at (level : nat) (v : json) : string :=
  match v with
  | JNull => "null"
  | JBool true => "true"
  | JBool false => "false"
  | JInt z => PyStr.of_Z z
  | JFloat r => r
  | JStr s => quoted s
  | JArr [] => "[]"
  | JArr items =>
      "[" +:+ nl
      +:+ join_lines (map (fun x => indent (S level) +:+ dumps_at (S level) x) items)
      +:+ nl +:+ indent level +:+ "]"
  | JObj [] => "{}"
  | JObj members =>
      "{" +:+ nl
      +:+ join_lines
            (map (fun kv => let '(k, x) := kv in
                            indent (S level) +:+ quoted k +:+ ": " +:+ dumps_at (S level) x)
                 members)
      +:+ nl +:+ indent level +:+ "}"
  end.

Definition dumps (v : json) : string := dumps_at 0 v.

(** The two reports of the spec's end-to-end scenarios. *)
Definition two_findings : json :=
  JArr [ JObj [("File", JStr "a.txt"); ("StartLine", JInt 1); ("EndLine", JInt 1);
               ("Description", JStr "x")];
         JObj [("File", JStr "b.txt"); ("StartLine", JInt 5); ("EndLine", JInt 6);
               ("Description", JStr "y")] ].

Definition partial_findings : json :=
  JArr [ JObj [("StartLine", JInt 7)]; JObj [("File", JStr "c.txt"); ("Entropy", JFloat "3.5")] ].

Definition known_documents : list json :=
  [JArr []; two_findings; partial_findings].

(** A reader that recognises the printed form of the known documents and
    rejects every other text. *)
Definition loads (text : string) : option json :=
  find (fun v => String.eqb (dumps v) text) known_documents.

Fixpoint join_comma (parts : list string) : string :=
  match parts with
  | [] => EmptyString
  | [p] => p
  | p :: rest => p +:+ ", " +:+ join_comma rest
  end.

(** [repr] of values whose strings need no escaping. *)
Fixpoint repr (v : json) : string :=
  match v with
  | JNull => "None"
  | JBool true => "True"
  | JBool false => "False"
  | JInt z => PyStr.of_Z z
  | JFloat r => r
  | JStr s => "'" +:+ s +:+ "'"
  | JArr items => "[" +:+ join_comma (map repr items) +:+ "]"
  | JObj members =>
      "{" +:+ join_comma (map (fun kv => let '(k, x) := kv in
                                         "'" +:+ k +:+ "': " +:+ repr x) members)
      +:+ "}"
  end.

Definition text_of_exn (e : exn) : string :=
  match e with
  | JSONDecodeError => "JSONDecodeError"
  | AttributeError => "AttributeError"
  | TypeError => "TypeError"
  | ValidationError => "ValidationError"
  | OSError detail => detail
  | CalledProcessError _ => "CalledProcessError"
  end.

(** A child that fails with the given captured error text and leaves the
    file system alone. *)
Definition failing_child (captured_stderr : string) (args : list string) (f : fsys)
    : child_result * fsys :=
  (ChildNonZero captured_stderr, f).

Definition platform (child : list string -> fsys -> child_result * fsys) : Platform :=
  {| json_loads := loads;
     json_dumps := dumps;
     py_repr := repr;
     exn_str := text_of_exn;
     strftime_now := fun _ => "2024-05-01_10:20:30";
     spawn := child |}.

Definition no_fault (path : string) : option exn := None.

Definition read_only (path : string) : option exn :=
  Some (OSError ("[Errno 13] Permission denied: '" +:+ path +:+ "'")).

Definition start (args : list string) (contents : gmap string string)
    (faults : string -> option exn) : world :=
  {| argv := args;
     fs := {| files := contents; wfault := faults |};
     stdout := [];
     stderr := [];
     ticks := 0 |}.

End Demo.

(** ** The same platform with a reader for further documents *)

Module Bench.

(** Documents that are not lists of raw findings. *)
Definition odd_documents : list json :=
  [ JInt 5;
    JArr [JObj [("File", JStr "a.txt")]; JInt 5];
    JArr [JObj [("File", JNull); ("Description", JStr "x")]];
    JObj [];
    error_report 3 "Gitleaks report file not found" ].

Definition loads (text : string) : option json :=
  find (fun v => String.eqb (Demo.dumps v) text)
    (Demo.known_documents ++ odd_documents).

Definition platform (child : list string -> fsys -> child_result * fsys) : Platform :=
  {| json_loads := loads;
     json_dumps := Demo.dumps;
     py_repr := Demo.repr;
     exn_str := Demo.text_of_exn;
     strftime_now := fun _ => "2024-05-01_10:20:30";
     spawn := child |}.

(** A child that exits with status 0 and writes [text] to [path]. *)
Definition writing_child (path text : string) (args : list string) (f : fsys)
    : child_result * fsys :=
  (ChildExit0, {| files := <[path := text]> (files f); wfault := wfault f |}).

(** A child that exits with status 0 and touches nothing. *)
Definition quiet_child (args : list string) (f : fsys) : child_result * fsys :=
  (ChildExit0, f).

(** A child that cannot be started. *)
Definition absent_child (args : list string) (f : fsys) : child_result * fsys :=
  (ChildNotStarted (OSError "[Errno 2] No such file or directory: 'gitleaks'"), f).

End Bench.

(** * Properties *)

Ltac unfold_prog :=
  unfold when, try_except, bind, ret, raise, sys_exit,
    open_write, open_read, path_exists, print, stderr_write, get_argv,
    set_argv, set_fs, json_load, now_strftime, create_with_timestamp in *.

Example of_Z_samples :
  PyStr.of_Z 42 = "42" /\ PyStr.of_Z 0 = "0" /\ PyStr.of_Z (-7) = "-7".
Proof. repeat split; reflexivity. Qed.

Example strip_first_line_sample :
  diagnostic ("  Error: unknown flag: --bogus" +:+ String PyStr.newline "usage: ...")
  = "Error: unknown flag: --bogus".
Proof. reflexivity. Qed.

Example contains_samples :
  PyStr.contains "unknown flag:" "Error: unknown flag: --bogus" = true
  /\ PyStr.contains "unknown command" "Error: unknown flag: --bogus" = false
  /\ PyStr.contains "" "" = true.
Proof. repeat split; reflexivity. Qed.

(** ** The text primitives do what the Python operations do *)

Lemma prefix_iff (kw s : string) :
  String.prefix kw s = true <-> exists post, s = kw +:+ post.
Proof.
  revert s. induction kw as [|a kw IH]; intros s.
  - destruct s; simpl; split; eauto.
  - destruct s as [|b s]; simpl.
    + split; [discriminate | intros [post H]; discriminate].
    + destruct (ascii_dec a b) as [->|Hne].
      * rewrite IH. split; intros [post H]; exists post.
        -- now rewrite H.
        -- now inversion H.
      * split; [discriminate | intros [post H]; inversion H; congruence].
Qed.

(** [kw in s] holds exactly when [kw] occurs somewhere inside [s]. *)
Lemma contains_iff (kw s : string) :
  PyStr.contains kw s = true <-> exists pre post, s = pre +:+ kw +:+ post.
Proof.
  induction s as [|c s IH]; cbn [PyStr.contains].
  - rewrite orb_false_r, prefix_iff. split.
    + intros [post H]. now exists "", post.
    + intros (pre & post & H). destruct pre; simpl in H; [eauto | discriminate].
  - rewrite orb_true_iff, IH, prefix_iff. split.
    + intros [[post H] | (pre & post & H)].
      * now exists "", post.
      * exists (String c pre), post. simpl. now rewrite H.
    + intros (pre & post & H). destruct pre as [|c' pre]; simpl in H.
      * left. eauto.
      * right. inversion H. eauto.
Qed.

(** The first line is what precedes the first line break, or the whole text. *)
Lemma first_line_split (s : string) :
  s = PyStr.first_line s
  \/ exists rest, s = PyStr.first_line s +:+ String PyStr.newline rest.
Proof.
  induction s as [|c s IH]; simpl.
  - now left.
  - destruct (Ascii.eqb_spec c PyStr.newline) as [->|Hne].
    + right. now exists s.
    + destruct IH as [IH | [rest IH]].
      * left. f_equal. exact IH.
      * right. exists rest.
        change (String c s = String c (PyStr.first_line s +:+ String PyStr.newline rest)).
        f_equal. exact IH.
Qed.

Lemma first_line_single (s : string) :
  PyStr.contains (String PyStr.newline EmptyString) (PyStr.first_line s) = false.
Proof.
  induction s as [|c s IH]; simpl.
  - reflexivity.
  - destruct (Ascii.eqb_spec c PyStr.newline) as [->|Hne]; [reflexivity|].
    cbn [PyStr.contains String.prefix]. rewrite IH.
    destruct (ascii_dec PyStr.newline c) as [E|_]; [congruence|].
    reflexivity.
Qed.

Lemma lstrip_head (s : string) :
  match PyStr.lstrip s with
  | EmptyString => True
  | String c _ => PyStr.is_space c = false
  end.
Proof.
  induction s as [|c s IH]; simpl; [exact I|].
  destruct (PyStr.is_space c) eqn:E; [exact IH | exact E].
Qed.

(** [d.get(key, default)]: the default when the key is absent, the value
    found otherwise. *)
Lemma dict_get_absent (key : string) (m : list (string * json)) (d : json) :
  (forall v, ~ In (key, v) m) -> dict_get key m d = d.
Proof.
  induction m as [|[k v] m IH]; simpl; intros H; [reflexivity|].
  destruct (String.eqb_spec key k) as [->|Hne].
  - exfalso. apply (H v). now left.
  - apply IH. intros v' Hin. apply (H v'). now right.
Qed.

Lemma dict_get_present (key : string) (m : list (string * json)) (d : json) :
  (exists v, In (key, v) m) -> exists v, In (key, v) m /\ dict_get key m d = v.
Proof.
  induction m as [|[k v] m IH]; simpl; intros [v' H]; [contradiction|].
  destruct (String.eqb_spec key k) as [->|Hne].
  - exists v. split; [now left | reflexivity].
  - destruct H as [H|H]; [inversion H; congruence|].
    destruct IH as (v'' & Hin & E); [eauto|]. exists v''. split; [now right | exact E].
Qed.

Section ReporterFacts.
Context {P : Platform}.

Lemma write_error_message_run (m : string) (c : Z) (p : string) (w : world) :
  write_error_message m c p w = (Exit c, reported m c p w).
Proof.
  unfold write_error_message, reported. unfold_prog.
  destruct (wfault (fs w) p) as [e|]; reflexivity.
Qed.

Lemma bind_write_error_message {B} (m : string) (c : Z) (p : string)
    (k : unit -> prog B) (w : world) :
  bind (write_error_message m c p) k w = (Exit c, reported m c p w).
Proof. unfold bind. rewrite write_error_message_run. reflexivity. Qed.

Lemma reported_written (m : string) (c : Z) (p : string) (w : world) :
  wfault (fs w) p = None ->
  files (fs (reported m c p w)) !! p = Some (json_dumps (error_report c m))
  /\ stdout (reported m c p w) = stdout w ++ [notice_line p].
Proof.
  intros H. unfold reported. rewrite H. simpl. split; [apply lookup_insert_eq | reflexivity].
Qed.

Lemma reported_failed (m : string) (c : Z) (p : string) (w : world) (e : exn) :
  wfault (fs w) p = Some e ->
  fs (reported m c p w) = fs w
  /\ stdout (reported m c p w) = stdout w ++ [write_failure_line e].
Proof. intros H. unfold reported. rewrite H. split; reflexivity. Qed.

Lemma reported_other_files (m : string) (c : Z) (p q : string) (w : world) :
  q <> p -> files (fs (reported m c p w)) !! q = files (fs w) !! q.
Proof.
  intros H. unfold reported. destruct (wfault (fs w) p); simpl; [reflexivity|].
  apply lookup_insert_ne. congruence.
Qed.

Lemma reported_frame (m : string) (c : Z) (p : string) (w : world) :
  argv (reported m c p w) = argv w
  /\ stderr (reported m c p w) = stderr w
  /\ ticks (reported m c p w) = ticks w.
Proof. unfold reported. destruct (wfault (fs w) p); repeat split. Qed.

End ReporterFacts.

(** C2. The Error Reporter is terminal and keeps the exit code: for every
    message, exit code and destination, [write_error_message] ends in
    [SystemExit] with the given code and never returns or raises.  When the
    destination can be opened for writing, the file ends up holding exactly
    the serialized [{"exit_code": C, "error_message": M}] and the pointer
    notice is the line printed last; when it cannot, the file system is
    untouched, the write failure is the line printed last, and the exit code
    is still the same. *)
Theorem write_error_message_terminal {P : Platform}
    (M : string) (C : Z) (path : string) (w : world) :
  let r := write_error_message M C path w in
  fst r = Exit C
  /\ (forall a, fst r <> Ret a)
  /\ (forall e, fst r <> Raise e)
  /\ match wfault (fs w) path with
     | None =>
         files (fs (snd r)) !! path = Some (json_dumps (error_report C M))
         /\ stdout (snd r) = stdout w ++ [notice_line path]
     | Some e =>
         fs (snd r) = fs w
         /\ stdout (snd r) = stdout w ++ [write_failure_line e]
     end.
Proof.
  intros r. subst r. rewrite write_error_message_run. simpl.
  repeat split; try discriminate.
  destruct (wfault (fs w) path) as [e|] eqn:H.
  - now apply reported_failed.
  - now apply reported_written.
Qed.

Section TransformerFacts.
Context {P : Platform}.

Lemma path_exists_present (p text : string) (w : world) :
  files (fs w) !! p = Some text -> path_exists p w = (Ret true, w).
Proof.
  intros H. unfold path_exists. rewrite H.
  rewrite bool_decide_eq_true_2 by eauto. reflexivity.
Qed.

Lemma path_exists_absent (p : string) (w : world) :
  files (fs w) !! p = None -> path_exists p w = (Ret false, w).
Proof.
  intros H. unfold path_exists. rewrite H.
  rewrite bool_decide_eq_false_2; [reflexivity|].
  intros [x Hx]. discriminate.
Qed.

(** The transformation up to the point where the findings are built. *)
Lemma transform_results_loaded (p text : string) (v : json) (w : world) :
  files (fs w) !! p = Some text ->
  json_loads text = Some v ->
  transform_results p w =
    (findings <- build_findings v ;;
     when (match findings with [] => true | _ => false end)
       (write_error_message no_findings_message (value NO_FINDINGS) p) ;;
     result <- GitleaksResults_new findings ;;
     print (json_dumps (model_dump result)) ;;
     report_file <- create_with_timestamp "transformed_report" ".json" ;;
     open_write (generate_filename report_file) (json_dumps (model_dump result))) w.
Proof.
  intros Hf Hj. unfold transform_results.
  unfold bind at 1. rewrite (path_exists_present _ _ _ Hf). simpl.
  unfold bind at 1. unfold when at 1, ret at 1.
  unfold bind at 1. unfold open_read. rewrite Hf.
  unfold bind at 1. unfold json_load. rewrite Hj. reflexivity.
Qed.

End TransformerFacts.

(** C7. A report path that does not exist: [transform_results] behaves as
    the Error Reporter called with the message "Gitleaks report file not
    found", exit code 3 (FILE_NOT_FOUND) and the input path itself as the
    destination, and so ends in [SystemExit(3)]. *)
Theorem transform_results_file_not_found {P : Platform} (path : string) (w : world) :
  files (fs w) !! path = None ->
  transform_results path w
    = write_error_message "Gitleaks report file not found" (value FILE_NOT_FOUND) path w
  /\ fst (transform_results path w) = Exit 3.
Proof.
  intros H.
  assert (E : transform_results path w
              = (Exit 3, reported "Gitleaks report file not found" 3 path w)).
  { unfold transform_results.
    unfold bind at 1. rewrite (path_exists_absent _ _ H). simpl.
    unfold when. apply bind_write_error_message. }
  rewrite E, write_error_message_run. split; reflexivity.
Qed.

Lemma transform_results_file_not_found_witness :
  let w := Demo.start ["prog"] ∅ Demo.no_fault in
  files (fs w) !! "report_x.json" = None
  /\ fst (transform_results (P := Demo.platform (Demo.failing_child "")) "report_x.json" w)
     = Exit 3.
Proof.
  intros w. split; [reflexivity|].
  apply (transform_results_file_not_found (P := Demo.platform (Demo.failing_child ""))
           "report_x.json" w). reflexivity.
Defined.

(** C8. An existing report whose text is not valid JSON: the parse fault
    raised by [json.load] leaves [transform_results] uncaught.  The call
    neither returns nor ends in [SystemExit], and the world is exactly as it
    was: no ErrorReport is written and nothing is printed. *)
Theorem transform_results_malformed_json {P : Platform} (path text : string) (w : world) :
  files (fs w) !! path = Some text ->
  json_loads text = None ->
  transform_results path w = (Raise JSONDecodeError, w)
  /\ (forall code, fst (transform_results path w) <> Exit code).
Proof.
  intros Hf Hj.
  assert (E : transform_results path w = (Raise JSONDecodeError, w)).
  { unfold transform_results.
    unfold bind at 1. rewrite (path_exists_present _ _ _ Hf). simpl.
    unfold bind at 1. unfold when at 1, ret at 1.
    unfold bind at 1. unfold open_read. rewrite Hf.
    unfold bind at 1. unfold json_load. rewrite Hj. reflexivity. }
  rewrite E. split; [reflexivity | discriminate].
Qed.

Lemma transform_results_malformed_json_witness :
  let w := Demo.start ["prog"] {["r.json" := "Not a JSON content"]} Demo.no_fault in
  fst (transform_results (P := Demo.platform (Demo.failing_child "")) "r.json" w)
  = Raise JSONDecodeError.
Proof.
  intros w.
  destruct (transform_results_malformed_json (P := Demo.platform (Demo.failing_child ""))
              "r.json" "Not a JSON content" w) as [E _].
  - apply lookup_singleton_eq.
  - reflexivity.
  - rewrite E. reflexivity.
Defined.

(** C6 as stated fails when the raw-report file cannot be opened for writing:
    a read-only report holding an empty array still ends the run with exit
    code 4, but the file keeps its text and no ErrorReport is written. *)
Lemma read_only_empty_report_keeps_text :
  let P := Demo.platform (Demo.failing_child "") in
  let w := Demo.start ["prog"] {["r.json" := "[]"]} Demo.read_only in
  let r := transform_results "r.json" w in
  files (fs w) !! "r.json" = Some "[]"
  /\ json_loads "[]" = Some (JArr [])
  /\ fst r = Exit 4
  /\ files (fs (snd r)) !! "r.json" = Some "[]"
  /\ files (fs (snd r)) !! "r.json"
     <> Some (json_dumps (error_report 4 no_findings_message)).
Proof. vm_compute. repeat split; discriminate. Qed.

(** C6 (amended). A report that parses to an empty array: [transform_results]
    is the Error Reporter called with the no-findings message, exit code 4
    (NO_FINDINGS) and the raw-report path as destination, so the run ends in
    [SystemExit(4)].  The ErrorReport replaces the raw report when that path
    can be opened for writing; otherwise the file system is untouched and the
    write failure is printed.  In both cases no ResultReport is produced: the
    only line printed is the reporter's own, no other file is created or
    changed, and no second timestamp is taken. *)
Theorem transform_results_no_findings {P : Platform} (path text : string) (w : world) :
  files (fs w) !! path = Some text ->
  json_loads text = Some (JArr []) ->
  let r := transform_results path w in
  r = write_error_message no_findings_message (value NO_FINDINGS) path w
  /\ fst r = Exit 4
  /\ (forall q, q <> path -> files (fs (snd r)) !! q = files (fs w) !! q)
  /\ ticks (snd r) = ticks w
  /\ match wfault (fs w) path with
     | None =>
         files (fs (snd r)) !! path
           = Some (json_dumps (error_report 4 no_findings_message))
         /\ stdout (snd r) = stdout w ++ [notice_line path]
     | Some e =>
         fs (snd r) = fs w
         /\ stdout (snd r) = stdout w ++ [write_failure_line e]
     end.
Proof.
  intros Hf Hj r.
  assert (E : r = (Exit 4, reported no_findings_message 4 path w)).
  { subst r. rewrite (transform_results_loaded _ _ _ _ Hf Hj).
    unfold build_findings. simpl.
    unfold bind at 1. unfold ret at 1. unfold when.
    apply bind_write_error_message. }
  rewrite E, write_error_message_run. simpl.
  split; [reflexivity|]. split; [reflexivity|]. split; [|split].
  - intros q Hq. now apply reported_other_files.
  - apply reported_frame.
  - destruct (wfault (fs w) path) as [e|] eqn:H.
    + now apply reported_failed.
    + now apply reported_written.
Qed.

Lemma transform_results_no_findings_witness :
  let P := Demo.platform (Demo.failing_child "") in
  let w := Demo.start ["prog"] {["r.json" := "[]"]} Demo.no_fault in
  fst (transform_results "r.json" w) = Exit 4
  /\ files (fs (snd (transform_results "r.json" w))) !! "r.json"
     = Some (json_dumps (error_report 4 no_findings_message)).
Proof.
  intros P w.
  destruct (transform_results_no_findings (P := P) "r.json" "[]" w) as (_ & E & _ & _ & F).
  - reflexivity.
  - reflexivity.
  - split; [exact E | exact (proj1 F)].
Defined.

Section CondensingFacts.
Context {P : Platform}.

Lemma dict_get_str (key : string) (m : list (string * json)) (d : string) :
  str_or_absent key m = true -> exists s, dict_get key m (JStr d) = JStr s.
Proof.
  unfold str_or_absent. induction m as [|[k v] m IH]; simpl.
  - intros _. now exists d.
  - destruct (String.eqb key k).
    + destruct v; try discriminate. intros _. now eexists.
    + exact IH.
Qed.

Lemma shaped_item (item : json) :
  raw_finding_shaped item = true ->
  exists m d r,
    item = JObj m /\ finding_of_item item = Some d /\ validate_item d = Some r
    /\ condensed_from m r.
Proof.
  destruct item as [| | | | |items|m]; simpl; try discriminate.
  intros H. apply andb_prop in H as [Hf Hd].
  destruct (dict_get_str "File" m "unknown" Hf) as [f Ef].
  destruct (dict_get_str "Description" m "No description provided" Hd) as [ds Ed].
  eexists m, _, _. split; [reflexivity|]. split; [reflexivity|].
  unfold validate_item; simpl. rewrite Ef, Ed. simpl.
  split; [reflexivity|]. unfold condensed_from; simpl.
  rewrite Ef, Ed. repeat split.
Qed.

Lemma shaped_items (items : list json) :
  forallb raw_finding_shaped items = true ->
  exists ds rs,
    findings_of_items items = Some ds /\ validate_items ds = Some rs
    /\ length ds = length items /\ length rs = length items
    /\ forall (i : nat) (item : json), items !! i = Some item ->
         exists m r, item = JObj m /\ rs !! i = Some r /\ condensed_from m r.
Proof.
  induction items as [|item items IH]; simpl.
  - intros _. exists [], []. repeat split. intros i item H. destruct i; discriminate.
  - intros H. apply andb_prop in H as [Hi Hr].
    destruct (shaped_item item Hi) as (m & d & r & Em & Ed & Er & Hc).
    destruct (IH Hr) as (ds & rs & Eds & Ers & Lds & Lrs & Hall).
    exists (d :: ds), (r :: rs). rewrite Ed, Eds. simpl. rewrite Er, Ers.
    repeat split; simpl; try congruence.
    intros [|i] it Hit; simpl in *.
    + inversion Hit; subst it. now exists m, r.
    + now apply Hall.
Qed.

End CondensingFacts.

(** C1. A report that parses to an array of N >= 1 raw findings (objects
    whose [File] and [Description], when present, are strings): the condensed
    result has exactly N findings, the i-th one built from the i-th record
    and from nothing else: [filename] is the record's [File] value or
    "unknown", [line_range] is the start and end bounds joined by "-" with
    "unknown" standing in for each missing bound on its own, [description]
    is the [Description] value or "No description provided".  The serialized
    result is printed, and written to the freshly named transformed report
    (the call raises the write failure after printing when that file cannot
    be opened). *)
Theorem transform_results_condenses {P : Platform}
    (path text : string) (items : list json) (w : world) :
  files (fs w) !! path = Some text ->
  json_loads text = Some (JArr items) ->
  (1 <= length items)%nat ->
  forallb raw_finding_shaped items = true ->
  exists rs : list GitleaksResultItem,
    length rs = length items
    /\ (forall (i : nat) (item : json), items !! i = Some item ->
          exists m r, item = JObj m /\ rs !! i = Some r /\ condensed_from m r)
    /\ let out := json_dumps (model_dump {| findings := rs |}) in
       let target :=
         generate_filename {| base_name := "transformed_report"; extension := ".json";
                              timestamp := strftime_now (ticks w) |} in
       transform_results path w =
         match wfault (fs w) target with
         | None =>
             (Ret tt,
              {| argv := argv w;
                 fs := {| files := <[target := out]> (files (fs w));
                          wfault := wfault (fs w) |};
                 stdout := stdout w ++ [out];
                 stderr := stderr w;
                 ticks := S (ticks w) |})
         | Some e =>
             (Raise e,
              {| argv := argv w; fs := fs w; stdout := stdout w ++ [out];
                 stderr := stderr w; ticks := S (ticks w) |})
         end.
Proof.
  intros Hf Hj Hn Hs.
  destruct (shaped_items items Hs) as (ds & rs & Eds & Ers & Lds & Lrs & Hall).
  exists rs. split; [exact Lrs|]. split; [exact Hall|].
  intros out target.
  rewrite (transform_results_loaded _ _ _ _ Hf Hj).
  unfold build_findings. simpl. rewrite Eds.
  destruct ds as [|d ds']; [simpl in Lds; lia|].
  unfold bind at 1. unfold ret at 1.
  unfold bind at 1. unfold when at 1, ret at 1.
  unfold bind at 1. unfold GitleaksResults_new. rewrite Ers. unfold ret at 1.
  unfold_prog. simpl. fold target. fold out.
  destruct (wfault (fs w) target); reflexivity.
Qed.

Lemma transform_results_condenses_witness :
  let P := Demo.platform (Demo.failing_child "") in
  let w := Demo.start ["prog"] {["r.json" := Demo.dumps Demo.two_findings]} Demo.no_fault in
  exists rs : list GitleaksResultItem,
    length rs = 2%nat
    /\ fst (transform_results "r.json" w) = Ret tt
    /\ stdout (snd (transform_results "r.json" w))
       = [json_dumps (model_dump {| findings := rs |})].
Proof.
  intros P w.
  destruct (transform_results_condenses (P := P) "r.json" (Demo.dumps Demo.two_findings)
              [ JObj [("File", JStr "a.txt"); ("StartLine", JInt 1); ("EndLine", JInt 1);
                      ("Description", JStr "x")];
                JObj [("File", JStr "b.txt"); ("StartLine", JInt 5); ("EndLine", JInt 6);
                      ("Description", JStr "y")] ] w)
    as (rs & L & _ & E).
  - reflexivity.
  - reflexivity.
  - simpl. lia.
  - reflexivity.
  - exists rs. split; [exact L|]. rewrite E. split; reflexivity.
Defined.

(** The spec's first end-to-end scenario, run on the demo platform. *)
Example transform_results_two_findings :
  let P := Demo.platform (Demo.failing_child "") in
  let w := Demo.start ["prog"] {["r.json" := Demo.dumps Demo.two_findings]} Demo.no_fault in
  let out :=
    Demo.dumps
      (JObj [("findings",
              JArr [ JObj [("filename", JStr "a.txt"); ("line_range", JStr "1-1");
                           ("description", JStr "x")];
                     JObj [("filename", JStr "b.txt"); ("line_range", JStr "5-6");
                           ("description", JStr "y")] ])]) in
  fst (transform_results "r.json" w) = Ret tt
  /\ stdout (snd (transform_results "r.json" w)) = [out]
  /\ files (fs (snd (transform_results "r.json" w)))
       !! "transformed_report_2024-05-01_10:20:30.json" = Some out.
Proof. vm_compute. repeat split. Qed.

(** Missing fields fall back to the sentinels one by one. *)
Example transform_results_partial_findings :
  let P := Demo.platform (Demo.failing_child "") in
  let w := Demo.start ["prog"] {["r.json" := Demo.dumps Demo.partial_findings]} Demo.no_fault in
  stdout (snd (transform_results "r.json" w))
  = [Demo.dumps
       (JObj [("findings",
               JArr [ JObj [("filename", JStr "unknown"); ("line_range", JStr "7-unknown");
                            ("description", JStr "No description provided")];
                      JObj [("filename", JStr "c.txt"); ("line_range", JStr "unknown-unknown");
                            ("description", JStr "No description provided")] ])])].
Proof. vm_compute. reflexivity. Qed.

Section InvokerFacts.
Context {P : Platform}.

(** [run_gitleaks] on a child that failed: the first matching check calls
    the Error Reporter and the run ends there; with no matching check the
    call returns, after echoing the error text if verbose output is on. *)
Lemma run_gitleaks_failed (args : list string) (rf : string) (w : world)
    (e : string) (f : fsys) :
  spawn args (fs w) = (ChildNonZero e, f) ->
  run_gitleaks args rf w =
    match first_match e with
    | Some (code, message) => (Exit code, reported message code rf (set_fs w f))
    | None =>
        (Ret tt, after_child w f (if verbose_requested (argv w) then [e] else []))
    end.
Proof.
  intros Hs. unfold run_gitleaks, try_except, subprocess_run. rewrite Hs.
  unfold first_match, matching_checks, classification_checks, diagnostic.
  cbv zeta.
  destruct (PyStr.any_in ["unknown flag:"; "flag needs an argument:"]
              (PyStr.first_line (PyStr.strip e))) eqn:H1.
  { unfold when at 1. rewrite bind_write_error_message. reflexivity. }
  destruct (PyStr.any_in ["unknown command"; "for more information about a command."]
              (PyStr.first_line (PyStr.strip e))) eqn:H2.
  { unfold when at 1 2. unfold bind at 1. unfold ret at 1.
    rewrite bind_write_error_message. reflexivity. }
  destruct (PyStr.contains "could not create Git cmd" e) eqn:H3.
  { unfold when at 1 2 3. unfold bind at 1. unfold ret at 1.
    unfold bind at 1. unfold ret at 1.
    rewrite bind_write_error_message. reflexivity. }
  unfold verbose_requested, after_child. unfold_prog. simpl.
  destruct (PyStr.mem "--verbose" (argv w) || PyStr.mem "-v" (argv w)); simpl.
  - reflexivity.
  - rewrite app_nil_r. reflexivity.
Qed.

Lemma first_match_none (e : string) :
  PyStr.any_in ["unknown flag:"; "flag needs an argument:"] (diagnostic e) = false ->
  PyStr.any_in ["unknown command"; "for more information about a command."]
    (diagnostic e) = false ->
  PyStr.contains "could not create Git cmd" e = false ->
  first_match e = None.
Proof.
  intros H1 H2 H3. unfold first_match, matching_checks, classification_checks.
  rewrite H1, H2, H3. reflexivity.
Qed.

End InvokerFacts.

(** C3 as stated fails: an error line that matches both the first and the
    second check ends the run with the first check's exit code 2, while the
    last matching check of the spec's reading would give exit code 1. *)
Lemma earlier_check_beats_later_check :
  let e := "Error: unknown flag: --x, unknown command" in
  let P := Demo.platform (Demo.failing_child e) in
  let w := Demo.start ["prog"; "detect"; "--x"] ∅ Demo.no_fault in
  let r := run_gitleaks ["gitleaks"; "detect"; "--x"] "report_t.json" w in
  matching_checks e = [(2, e); (1, e)]
  /\ spec_last_match e = Some (1, e)
  /\ fst r = Exit 2
  /\ fst r <> Exit 1
  /\ files (fs (snd r)) !! "report_t.json" = Some (json_dumps (error_report 2 e))
  /\ files (fs (snd r)) !! "report_t.json" <> Some (json_dumps (error_report 1 e)).
Proof. vm_compute. repeat split; discriminate. Qed.

(** C3 (amended). On a failed child the checks are tried in source order and
    the first one that matches decides: [run_gitleaks] is the Error Reporter
    called with that check's message and exit code on the report file, the
    run ends with that exit code, and no later check is evaluated. *)
Theorem run_gitleaks_first_match_wins {P : Platform}
    (args : list string) (rf : string) (w : world) (e : string) (f : fsys)
    (code : Z) (message : string) :
  spawn args (fs w) = (ChildNonZero e, f) ->
  first_match e = Some (code, message) ->
  run_gitleaks args rf w = write_error_message message code rf (set_fs w f)
  /\ fst (run_gitleaks args rf w) = Exit code.
Proof.
  intros Hs Hm. rewrite (run_gitleaks_failed _ _ _ _ _ Hs), Hm, write_error_message_run.
  split; reflexivity.
Qed.

Lemma run_gitleaks_first_match_wins_witness :
  let e := "Error: unknown flag: --x, unknown command" in
  let P := Demo.platform (Demo.failing_child e) in
  let w := Demo.start ["prog"; "detect"; "--x"] ∅ Demo.no_fault in
  fst (run_gitleaks ["gitleaks"; "detect"; "--x"] "report_t.json" w) = Exit 2.
Proof.
  intros e P w.
  apply (run_gitleaks_first_match_wins (P := P) ["gitleaks"; "detect"; "--x"]
           "report_t.json" w e (fs w) 2 e); reflexivity.
Defined.

(** C4 as stated fails: with [--verbose] among the arguments and an error
    line that a check recognises, the run ends in the Error Reporter and the
    captured error text is never echoed. *)
Lemma classified_failure_is_not_echoed :
  let e := "Error: unknown flag: --bogus" in
  let P := Demo.platform (Demo.failing_child e) in
  let w := Demo.start ["prog"; "detect"; "--bogus"; "--verbose"] ∅ Demo.no_fault in
  let r := run_gitleaks ["gitleaks"; "detect"; "--bogus"; "--verbose"] "report_t.json" w in
  verbose_requested (argv w) = true
  /\ fst r = Exit 2
  /\ stderr (snd r) = []
  /\ stderr (snd r) <> stderr w ++ [e].
Proof. vm_compute. repeat split; discriminate. Qed.

(** C4 (amended). On a failed child with a verbose flag among the arguments,
    the captured error text is echoed unmodified exactly when no check
    matched; when a check matched, the run ends in the Error Reporter before
    the echo and nothing is written to the diagnostic stream. *)
Theorem run_gitleaks_verbose_echo {P : Platform}
    (args : list string) (rf : string) (w : world) (e : string) (f : fsys) :
  spawn args (fs w) = (ChildNonZero e, f) ->
  verbose_requested (argv w) = true ->
  stderr (snd (run_gitleaks args rf w))
  = match first_match e with
    | None => stderr w ++ [e]
    | Some _ => stderr w
    end.
Proof.
  intros Hs Hv. rewrite (run_gitleaks_failed _ _ _ _ _ Hs), Hv.
  destruct (first_match e) as [[code message]|]; simpl; [|reflexivity].
  apply (reported_frame message code rf (set_fs w f)).
Qed.

Lemma run_gitleaks_verbose_echo_witness :
  let e := "fatal: something unexpected" in
  let P := Demo.platform (Demo.failing_child e) in
  let w := Demo.start ["prog"; "detect"; "-v"] ∅ Demo.no_fault in
  stderr (snd (run_gitleaks ["gitleaks"; "detect"; "-v"] "report_t.json" w)) = [e].
Proof.
  intros e P w.
  apply (run_gitleaks_verbose_echo (P := P) ["gitleaks"; "detect"; "-v"]
           "report_t.json" w e (fs w)); reflexivity.
Defined.

Section ArgumentFacts.
Context {P : Platform}.

Lemma check_args_no_arguments (rf : string) (w : world) :
  (length (argv w) < 2)%nat ->
  check_args rf w = (Exit 2, reported usage_message 2 rf w).
Proof.
  intros H. unfold check_args.
  unfold bind at 1. unfold get_argv at 1.
  apply Nat.ltb_lt in H. rewrite H. unfold when at 1.
  apply bind_write_error_message.
Qed.

Lemma check_args_prepares (rf : string) (w : world) :
  (2 <= length (argv w))%nat ->
  PyStr.mem "--help" (argv w) || PyStr.mem "-h" (argv w) = false ->
  check_args rf w = (Ret rf, with_argv w (prepared_argv rf (argv w))).
Proof.
  intros Hl Hh. unfold check_args, prepared_argv, with_argv.
  assert (Hlt : Nat.ltb (length (argv w)) 2 = false) by (apply Nat.ltb_ge; exact Hl).
  destruct w as [a f so se t]. simpl in *.
  unfold_prog. simpl. rewrite Hlt. simpl. rewrite Hh. simpl.
  destruct (PyStr.mem "--report-path" a); simpl.
  - destruct (PyStr.mem "--config" a); simpl.
    + destruct (PyStr.mem "gitleaks" (tail (a ++ ["--config"; "src/gitleaks.toml"])));
        reflexivity.
    + destruct (PyStr.mem "gitleaks" (tail a)); reflexivity.
  - destruct (PyStr.mem "--config" (a ++ ["--report-path"; rf])); simpl.
    + destruct (PyStr.mem "gitleaks"
                  (tail ((a ++ ["--report-path"; rf]) ++ ["--config"; "src/gitleaks.toml"])));
        reflexivity.
    + destruct (PyStr.mem "gitleaks" (tail (a ++ ["--report-path"; rf]))); reflexivity.
Qed.

Lemma mem_app (x : string) (l1 l2 : list string) :
  PyStr.mem x (l1 ++ l2) = PyStr.mem x l1 || PyStr.mem x l2.
Proof. unfold PyStr.mem. apply existsb_app. Qed.

Lemma main_no_arguments (w : world) :
  (length (argv w) < 2)%nat ->
  main w = (Exit 2,
            reported usage_message 2
              (generate_filename {| base_name := "report"; extension := ".json";
                                    timestamp := strftime_now (ticks w) |})
              (tick w)).
Proof.
  intros H. unfold main.
  unfold bind at 1. unfold create_with_timestamp, now_strftime.
  unfold bind at 1. unfold ret at 1. fold (tick w).
  unfold bind at 1. rewrite check_args_no_arguments by exact H. reflexivity.
Qed.

(** Once [check_args] has returned, [main] runs the scanner and then the
    transformation on the same report file. *)
Lemma main_after_check_args (w w1 : world) (rf : string) :
  check_args
    (generate_filename {| base_name := "report"; extension := ".json";
                          timestamp := strftime_now (ticks w) |})
    (tick w) = (Ret rf, w1) ->
  main w = (run_gitleaks ("gitleaks" :: tail (argv w1)) rf ;; transform_results rf) w1.
Proof.
  intros H. unfold main.
  unfold bind at 1. unfold create_with_timestamp, now_strftime.
  unfold bind at 1. unfold ret at 1. fold (tick w).
  unfold bind at 1. rewrite H.
  unfold bind at 1. unfold get_argv. reflexivity.
Qed.

(** Past the usage and help branches, [main] runs the scanner on the
    prepared arguments and then the transformation, both on the initial
    report name. *)
Lemma main_prepared (w : world) :
  (2 <= length (argv w))%nat ->
  PyStr.mem "--help" (argv w) || PyStr.mem "-h" (argv w) = false ->
  let rf := generate_filename {| base_name := "report"; extension := ".json";
                                 timestamp := strftime_now (ticks w) |} in
  let a' := prepared_argv rf (argv w) in
  main w = (run_gitleaks ("gitleaks" :: tail a') rf ;; transform_results rf)
             (with_argv (tick w) a').
Proof.
  intros Hl Hh rf a'.
  rewrite (main_after_check_args w (with_argv (tick w) a') rf); [reflexivity|].
  apply (check_args_prepares rf (tick w)); assumption.
Qed.

End ArgumentFacts.

(** C5. A failed child whose error text no check recognises (neither keyword
    list matches the first line, and the full text lacks the git marker):
    [run_gitleaks] returns normally.  Nothing is printed, no file is written
    by this process (the file system is the one the child left) and no exit
    is taken.  Its caller then goes on to the transformation: whenever the
    call is the one [main] makes (from an initial world [w0], on the initial
    report name and the prepared arguments), the whole run [main w0] is the
    transformation of the report file from the world the call returned in. *)
Theorem run_gitleaks_unclassified_returns {P : Platform}
    (args : list string) (rf : string) (w : world) (e : string) (f : fsys) :
  spawn args (fs w) = (ChildNonZero e, f) ->
  PyStr.any_in ["unknown flag:"; "flag needs an argument:"] (diagnostic e) = false ->
  PyStr.any_in ["unknown command"; "for more information about a command."]
    (diagnostic e) = false ->
  PyStr.contains "could not create Git cmd" e = false ->
  let w' := after_child w f (if verbose_requested (argv w) then [e] else []) in
  run_gitleaks args rf w = (Ret tt, w')
  /\ fs w' = f /\ stdout w' = stdout w
  /\ (run_gitleaks args rf ;; transform_results rf) w = transform_results rf w'
  /\ (forall w0 : world,
        (2 <= length (argv w0))%nat ->
        PyStr.mem "--help" (argv w0) || PyStr.mem "-h" (argv w0) = false ->
        rf = generate_filename {| base_name := "report"; extension := ".json";
                                  timestamp := strftime_now (ticks w0) |} ->
        args = "gitleaks" :: tail (prepared_argv rf (argv w0)) ->
        w = with_argv (tick w0) (prepared_argv rf (argv w0)) ->
        main w0 = transform_results rf w').
Proof.
  intros Hs H1 H2 H3 w'.
  assert (E : run_gitleaks args rf w = (Ret tt, w')).
  { rewrite (run_gitleaks_failed _ _ _ _ _ Hs), (first_match_none _ H1 H2 H3).
    reflexivity. }
  assert (B : (run_gitleaks args rf ;; transform_results rf) w = transform_results rf w').
  { unfold bind. rewrite E. reflexivity. }
  split; [exact E|]. split; [reflexivity|]. split; [reflexivity|]. split; [exact B|].
  intros w0 Hl Hh Hrf Hargs Hw.
  rewrite (main_prepared w0 Hl Hh). cbv zeta.
  rewrite <- Hrf, <- Hargs, <- Hw. exact B.
Qed.

Lemma run_gitleaks_unclassified_returns_witness :
  let e := "fatal: something unexpected" in
  let P := Demo.platform (Demo.failing_child e) in
  let w0 := Demo.start ["prog"; "detect"] ∅ Demo.no_fault in
  let rf := "report_2024-05-01_10:20:30.json" in
  let args := ["gitleaks"; "detect"; "--report-path"; rf] in
  let w := with_argv (tick w0) ["prog"; "detect"; "--report-path"; rf] in
  run_gitleaks args rf w = (Ret tt, after_child w (fs w) [])
  /\ main w0 = transform_results rf (after_child w (fs w) [])
  /\ fst (main w0) = Exit 3.
Proof.
  intros e P w0 rf args w.
  destruct (run_gitleaks_unclassified_returns (P := P) args rf w e (fs w))
    as (E & _ & _ & _ & M); try reflexivity.
  assert (M0 : main w0 = transform_results rf (after_child w (fs w) [])).
  { apply (M w0); [simpl; lia | reflexivity | reflexivity | reflexivity | reflexivity]. }
  split; [exact E|]. split; [exact M0|]. rewrite M0. reflexivity.
Defined.

(** C9 as stated fails: a caller who passes [--config my.toml] gets the
    default configuration appended all the same, so the configuration
    settings are not left as given; and where the flag comes last with no
    value, the token that ends up after it is [--report-path], not the
    default path. *)
Lemma config_default_added_despite_value :
  let P := Demo.platform (Demo.failing_child "") in
  let a := ["prog"; "detect"; "--config"; "my.toml"] in
  let b := ["prog"; "detect"; "--config"] in
  spec_config_lacks_value a = false
  /\ check_args "report_t.json" (Demo.start a ∅ Demo.no_fault)
     = (Ret "report_t.json",
        Demo.start ["prog"; "detect"; "--config"; "my.toml";
                    "--report-path"; "report_t.json";
                    "--config"; "src/gitleaks.toml"] ∅ Demo.no_fault)
  /\ spec_config_lacks_value b = true
  /\ check_args "report_t.json" (Demo.start b ∅ Demo.no_fault)
     = (Ret "report_t.json",
        Demo.start ["prog"; "detect"; "--config";
                    "--report-path"; "report_t.json";
                    "--config"; "src/gitleaks.toml"] ∅ Demo.no_fault).
Proof. vm_compute. repeat split. Qed.

(** C9 (amended). When [check_args] gets past the usage and help branches it
    returns the report file and leaves [sys.argv] as follows: the report
    path is appended when [--report-path] is absent; then the two tokens
    [--config] and [src/gitleaks.toml] are appended at the end whenever the
    token [--config] occurs in the list, with or without a value after it,
    and nothing is appended for the configuration otherwise; then the first
    [gitleaks] token is removed if one occurs after the program name.  For a
    report file not itself named [--config], the token occurs exactly when
    the caller supplied it. *)
Theorem check_args_config_default {P : Platform} (rf : string) (w : world) :
  (2 <= length (argv w))%nat ->
  PyStr.mem "--help" (argv w) || PyStr.mem "-h" (argv w) = false ->
  let a := argv w in
  let a1 := if PyStr.mem "--report-path" a then a else a ++ ["--report-path"; rf] in
  let a2 := if PyStr.mem "--config" a1 then a1 ++ ["--config"; "src/gitleaks.toml"] else a1 in
  let a3 := if PyStr.mem "gitleaks" (tail a2) then PyStr.remove_first "gitleaks" a2 else a2 in
  check_args rf w = (Ret rf, with_argv w a3)
  /\ (rf <> "--config" -> PyStr.mem "--config" a1 = PyStr.mem "--config" a).
Proof.
  intros Hl Hh a a1 a2 a3. split.
  - rewrite (check_args_prepares rf w Hl Hh). reflexivity.
  - intros Hrf. subst a1. destruct (PyStr.mem "--report-path" a); [reflexivity|].
    rewrite mem_app.
    assert (Hm : PyStr.mem "--config" ["--report-path"; rf] = false).
    { unfold PyStr.mem. cbn [existsb].
      change (String.eqb "--config" "--report-path") with false.
      destruct (String.eqb_spec "--config" rf) as [E|_]; [congruence | reflexivity]. }
    rewrite Hm. apply orb_false_r.
Qed.

Lemma check_args_config_default_witness :
  let P := Demo.platform (Demo.failing_child "") in
  let w := Demo.start ["prog"; "gitleaks"; "detect"; "--config"; "my.toml"] ∅ Demo.no_fault in
  check_args "report_t.json" w
  = (Ret "report_t.json",
     with_argv w ["prog"; "detect"; "--config"; "my.toml";
                  "--report-path"; "report_t.json"; "--config"; "src/gitleaks.toml"]).
Proof.
  intros P w.
  apply (check_args_config_default (P := P) "report_t.json" w); [simpl; lia | reflexivity].
Defined.

(** C10 as stated fails when the report file cannot be created: started with
    no arguments in a place where files cannot be written, the run still ends
    with exit code 2, but no ErrorReport exists afterwards. *)
Lemma usage_error_without_report_file :
  let P := Demo.platform (Demo.failing_child "") in
  let w := Demo.start ["prog"] ∅ Demo.read_only in
  let r := main w in
  fst r = Exit 2
  /\ files (fs (snd r)) = ∅
  /\ files (fs (snd r)) !! "report_2024-05-01_10:20:30.json"
     <> Some (json_dumps (error_report 2 usage_message)).
Proof. vm_compute. repeat split; discriminate. Qed.

(** C10 (amended). With fewer than two entries in the argument list,
    [check_args] is the Error Reporter called with the fixed usage message,
    exit code 2 (COMMAND_ERROR) and the report file it was given, which in
    [main] is the run's initial timestamped name [report_<timestamp>.json];
    it ends in [SystemExit(2)] and never returns.  The ErrorReport is in that
    file afterwards when the file can be opened for writing; otherwise the
    file system is untouched and the write failure is printed. *)
Theorem check_args_usage_error {P : Platform} (rf : string) (w : world) :
  (length (argv w) < 2)%nat ->
  let r := check_args rf w in
  let initial_name :=
    generate_filename {| base_name := "report"; extension := ".json";
                         timestamp := strftime_now (ticks w) |} in
  snd r = snd (write_error_message usage_message (value COMMAND_ERROR) rf w)
  /\ fst r = Exit 2
  /\ (forall x, fst r <> Ret x)
  /\ main w = write_error_message usage_message (value COMMAND_ERROR) initial_name (tick w)
  /\ match wfault (fs w) rf with
     | None =>
         files (fs (snd r)) !! rf = Some (json_dumps (error_report 2 usage_message))
         /\ stdout (snd r) = stdout w ++ [notice_line rf]
     | Some e =>
         fs (snd r) = fs w
         /\ stdout (snd r) = stdout w ++ [write_failure_line e]
     end.
Proof.
  intros H r initial_name. subst r initial_name.
  rewrite (main_no_arguments w H), (check_args_no_arguments rf w H).
  rewrite !write_error_message_run. simpl.
  split; [reflexivity|]. split; [reflexivity|]. split; [discriminate|].
  split; [reflexivity|].
  destruct (wfault (fs w) rf) as [e|] eqn:Hw.
  - now apply reported_failed.
  - now apply reported_written.
Qed.

Lemma check_args_usage_error_witness :
  let P := Demo.platform (Demo.failing_child "") in
  let w := Demo.start ["prog"] ∅ Demo.no_fault in
  fst (check_args "report_t.json" w) = Exit 2
  /\ files (fs (snd (check_args "report_t.json" w))) !! "report_t.json"
     = Some (json_dumps (error_report 2 usage_message)).
Proof.
  intros P w.
  destruct (check_args_usage_error (P := P) "report_t.json" w) as (_ & E & _ & _ & F).
  - simpl. lia.
  - split; [exact E | exact (proj1 F)].
Defined.

(** The spec's third end-to-end scenario, through [main]: the first line of
    the child's error text is classified and reported with exit code 2. *)
Example main_unknown_flag :
  let e := "Error: unknown flag: --bogus" +:+ String PyStr.newline "usage: ..." in
  let P := Demo.platform (Demo.failing_child e) in
  let r := main (Demo.start ["prog"; "detect"; "--bogus"] ∅ Demo.no_fault) in
  fst r = Exit 2
  /\ files (fs (snd r)) !! "report_2024-05-01_10:20:30.json"
     = Some (json_dumps (error_report 2 "Error: unknown flag: --bogus")).
Proof. vm_compute. repeat split. Qed.

(** * Further properties of the pipeline *)

(** ** Shared facts *)

Lemma append_inv_head (s t1 t2 : string) : s +:+ t1 = s +:+ t2 -> t1 = t2.
Proof.
  induction s as [|c s IH]; simpl; intros H; [exact H|].
  inversion H. now apply IH.
Qed.

Lemma list_ascii_of_append (s t : string) :
  list_ascii_of_string (s +:+ t) = list_ascii_of_string s ++ list_ascii_of_string t.
Proof. induction s as [|c s IH]; simpl; [reflexivity | now rewrite IH]. Qed.

Lemma append_inv_tail (t1 t2 e : string) : t1 +:+ e = t2 +:+ e -> t1 = t2.
Proof.
  intros H. apply (f_equal list_ascii_of_string) in H.
  rewrite !list_ascii_of_append in H. apply app_inv_tail in H.
  rewrite <- (string_of_list_ascii_of_string t1), <- (string_of_list_ascii_of_string t2).
  now rewrite H.
Qed.

Lemma mem_remove_first_ne (x y : string) (l : list string) :
  x <> y -> PyStr.mem x (PyStr.remove_first y l) = PyStr.mem x l.
Proof.
  intros Hne. induction l as [|z l IH]; simpl; [reflexivity|].
  destruct (String.eqb_spec y z) as [->|Hyz].
  - destruct (String.eqb_spec x z) as [E|_]; [congruence | reflexivity].
  - simpl. now rewrite IH.
Qed.

Lemma mem_two (x y z : string) :
  PyStr.mem x [y; z] = String.eqb x y || String.eqb x z.
Proof. unfold PyStr.mem. simpl. now rewrite orb_false_r. Qed.

Lemma count_remove_first (x : string) (l : list string) :
  PyStr.mem x l = true ->
  S (count_occ string_dec (PyStr.remove_first x l) x) = count_occ string_dec l x.
Proof.
  induction l as [|y l IH]; simpl; [discriminate|].
  destruct (String.eqb_spec x y) as [->|Hne]; simpl.
  - intros _. destruct (string_dec y y); [reflexivity | contradiction].
  - intros H. destruct (string_dec y x) as [E|_]; [congruence|]. now apply IH.
Qed.

Lemma tail_app_nonempty {A} (l1 l2 : list A) :
  l1 <> [] -> tail (l1 ++ l2) = tail l1 ++ l2.
Proof. destruct l1; [contradiction | reflexivity]. Qed.

Lemma bind_exit_inv {A B} (m : prog A) (k : A -> prog B) (w : world) (c : Z) :
  fst (bind m k w) = Exit c ->
  fst (m w) = Exit c \/ exists a w', m w = (Ret a, w') /\ fst (k a w') = Exit c.
Proof.
  unfold bind. destruct (m w) as [[a|c'|e] w']; simpl; intros H.
  - right. eauto.
  - left. now inversion H.
  - discriminate.
Qed.

Lemma first_match_code (e message : string) (code : Z) :
  first_match e = Some (code, message) ->
  (code = 2 /\ message = diagnostic e)
  \/ (code = 1 /\ message = diagnostic e)
  \/ (code = 5 /\ message = no_git_message).
Proof.
  unfold first_match, matching_checks, classification_checks.
  destruct (PyStr.any_in ["unknown flag:"; "flag needs an argument:"] (diagnostic e));
    [simpl; intros H; inversion H; auto|].
  destruct (PyStr.any_in ["unknown command"; "for more information about a command."]
              (diagnostic e)); [simpl; intros H; inversion H; auto|].
  destruct (PyStr.contains "could not create Git cmd" e);
    simpl; intros H; inversion H; auto.
Qed.

(** ** Report file names *)

(** X1. For a fixed base name and extension, the file name determines the
    timestamp: two [ReportFile]s that differ only in their timestamps never
    generate the same name. *)
Theorem generate_filename_timestamp_inj (b e t1 t2 : string) :
  generate_filename {| base_name := b; extension := e; timestamp := t1 |}
  = generate_filename {| base_name := b; extension := e; timestamp := t2 |} ->
  t1 = t2.
Proof.
  unfold generate_filename. simpl. intros H.
  apply append_inv_head in H. apply append_inv_head in H.
  now apply append_inv_tail in H.
Qed.

Lemma generate_filename_timestamp_inj_witness :
  "2024-05-01_10:20:30" = "2024-05-01_10:20:30".
Proof.
  apply (generate_filename_timestamp_inj "report" ".json"
           "2024-05-01_10:20:30" "2024-05-01_10:20:30").
  reflexivity.
Defined.

(** The raw report name of [main] and the output name of
    [transform_results] differ whatever the two timestamps are. *)
Lemma report_names_apart (t1 t2 : string) :
  generate_filename {| base_name := "report"; extension := ".json"; timestamp := t1 |}
  <> generate_filename {| base_name := "transformed_report"; extension := ".json";
                          timestamp := t2 |}.
Proof. unfold generate_filename. simpl. discriminate. Qed.

(** ** The Error Reporter *)

(** X2. The Error Reporter changes nothing but its destination file and
    standard output: every other file keeps its text (or stays absent), the
    argument list, the diagnostic stream and the clock are as before, and
    exactly one line is printed. *)
Theorem write_error_message_frame {P : Platform}
    (M : string) (C : Z) (path : string) (w : world) :
  let w' := snd (write_error_message M C path w) in
  (forall q, q <> path -> files (fs w') !! q = files (fs w) !! q)
  /\ wfault (fs w') = wfault (fs w)
  /\ argv w' = argv w /\ stderr w' = stderr w /\ ticks w' = ticks w
  /\ exists line, stdout w' = stdout w ++ [line].
Proof.
  intros w'. subst w'. rewrite write_error_message_run. simpl.
  split; [intros q Hq; now apply reported_other_files|].
  unfold reported. destruct (wfault (fs w) path) as [e|]; simpl;
    repeat split; eauto.
Qed.

(** ** Argument preparation *)

Section MoreArgumentFacts.
Context {P : Platform}.

Lemma check_args_help_run (rf : string) (w : world) :
  (2 <= length (argv w))%nat ->
  PyStr.mem "--help" (argv w) || PyStr.mem "-h" (argv w) = true ->
  check_args rf w =
    match spawn ["gitleaks"; "--help"] (fs w) with
    | (ChildNotStarted e, f) => (Raise e, set_fs w f)
    | (_, f) => (Exit 0, set_fs w f)
    end.
Proof.
  intros Hl Hh. unfold check_args.
  assert (Hlt : Nat.ltb (length (argv w)) 2 = false) by (apply Nat.ltb_ge; exact Hl).
  unfold bind at 1. unfold get_argv at 1. rewrite Hlt.
  unfold bind at 1. unfold when at 1, ret at 1.
  unfold bind at 1. unfold get_argv at 1. rewrite Hh.
  unfold bind at 1. unfold when at 1.
  unfold bind at 1. unfold subprocess_run.
  destruct (spawn ["gitleaks"; "--help"] (fs w)) as [[|s|e] f]; reflexivity.
Qed.

(** What [check_args] does, branch by branch. *)
Lemma check_args_cases (rf : string) (w : world) :
  check_args rf w = (Exit 2, reported usage_message 2 rf w)
  \/ (exists f, check_args rf w = (Exit 0, set_fs w f))
  \/ (exists e f, check_args rf w = (Raise e, set_fs w f))
  \/ ((2 <= length (argv w))%nat
      /\ PyStr.mem "--help" (argv w) || PyStr.mem "-h" (argv w) = false
      /\ check_args rf w = (Ret rf, with_argv w (prepared_argv rf (argv w)))).
Proof.
  destruct (Nat.ltb (length (argv w)) 2) eqn:Hl.
  - left. apply check_args_no_arguments. now apply Nat.ltb_lt.
  - apply Nat.ltb_ge in Hl.
    destruct (PyStr.mem "--help" (argv w) || PyStr.mem "-h" (argv w)) eqn:Hh.
    + rewrite (check_args_help_run rf w Hl Hh).
      destruct (spawn ["gitleaks"; "--help"] (fs w)) as [[|s|e] f]; eauto 6.
    + right. right. right. split; [exact Hl|]. split; [reflexivity|].
      now apply check_args_prepares.
Qed.

Lemma mem_false_count (x : string) (l : list string) :
  PyStr.mem x l = false -> count_occ string_dec l x = 0%nat.
Proof.
  induction l as [|y l IH]; simpl; [reflexivity|].
  destruct (String.eqb_spec x y) as [->|Hne]; [discriminate|].
  simpl. intros H. destruct (string_dec y x) as [E|_]; [congruence | now apply IH].
Qed.

(** Appending tokens other than [x] to a non-empty list changes neither the
    occurrences of [x] nor whether [x] occurs after the first entry. *)
Lemma append_other_tokens (x : string) (a extra : list string) :
  a <> [] -> PyStr.mem x extra = false ->
  PyStr.mem x (tail (a ++ extra)) = PyStr.mem x (tail a)
  /\ count_occ string_dec (a ++ extra) x = count_occ string_dec a x.
Proof.
  intros Ha He. split.
  - rewrite tail_app_nonempty by exact Ha. rewrite mem_app, He. apply orb_false_r.
  - rewrite count_occ_app, (mem_false_count _ _ He). lia.
Qed.

(** Every token other than the five [check_args] deals in occurs in the
    prepared list exactly when it occurred in the original one. *)
Lemma mem_prepared_argv (x rf : string) (a : list string) :
  x <> "--report-path" -> x <> rf -> x <> "--config" -> x <> "src/gitleaks.toml" ->
  x <> "gitleaks" ->
  PyStr.mem x (prepared_argv rf a) = PyStr.mem x a.
Proof.
  intros H1 H2 H3 H4 H5. unfold prepared_argv.
  assert (E1 : PyStr.mem x ["--report-path"; rf] = false).
  { rewrite mem_two. destruct (String.eqb_spec x "--report-path"); [congruence|].
    destruct (String.eqb_spec x rf); [congruence | reflexivity]. }
  assert (E2 : PyStr.mem x ["--config"; "src/gitleaks.toml"] = false).
  { rewrite mem_two. destruct (String.eqb_spec x "--config"); [congruence|].
    destruct (String.eqb_spec x "src/gitleaks.toml"); [congruence | reflexivity]. }
  set (a1 := if PyStr.mem "--report-path" a then a else a ++ ["--report-path"; rf]).
  assert (M1 : PyStr.mem x a1 = PyStr.mem x a).
  { subst a1. destruct (PyStr.mem "--report-path" a); [reflexivity|].
    rewrite mem_app, E1. apply orb_false_r. }
  set (a2 := if PyStr.mem "--config" a1 then a1 ++ ["--config"; "src/gitleaks.toml"] else a1).
  assert (M2 : PyStr.mem x a2 = PyStr.mem x a).
  { subst a2. destruct (PyStr.mem "--config" a1); [|exact M1].
    rewrite mem_app, E2, M1. apply orb_false_r. }
  destruct (PyStr.mem "gitleaks" (tail a2)); [|exact M2].
  rewrite mem_remove_first_ne by exact H5. exact M2.
Qed.

End MoreArgumentFacts.

(** X3. With at least two entries in the argument list and [--help] or [-h]
    among them, [check_args] runs [gitleaks --help] and ends the process with
    exit code 0 whatever the child's own exit status, provided the child
    could be started.  Nothing is printed by this process, no ErrorReport is
    written (the files are the ones the child left) and the argument list is
    not extended. *)
Theorem check_args_help_exits_zero {P : Platform}
    (rf : string) (w : world) (r : child_result) (f : fsys) :
  (2 <= length (argv w))%nat ->
  PyStr.mem "--help" (argv w) || PyStr.mem "-h" (argv w) = true ->
  spawn ["gitleaks"; "--help"] (fs w) = (r, f) ->
  (forall e, r <> ChildNotStarted e) ->
  check_args rf w
  = (Exit 0, {| argv := argv w; fs := f; stdout := stdout w; stderr := stderr w;
                ticks := ticks w |}).
Proof.
  intros Hl Hh Hs Hr. rewrite (check_args_help_run rf w Hl Hh), Hs.
  destruct r as [|s|e]; try reflexivity. now destruct (Hr e).
Qed.

Lemma check_args_help_exits_zero_witness :
  let P := Demo.platform (Demo.failing_child "help failed") in
  let w := Demo.start ["prog"; "detect"; "-h"] ∅ Demo.no_fault in
  check_args "report_t.json" w = (Exit 0, w).
Proof.
  intros P w.
  apply (check_args_help_exits_zero (P := P) "report_t.json" w
           (ChildNonZero "help failed") (fs w)); try reflexivity.
  - simpl. lia.
  - discriminate.
Defined.

(** X4. Whenever [check_args] returns, it returns the very report file it
    was given, even if the caller passed a [--report-path] of their own; the
    only thing it has changed is the argument list, which now contains
    [--report-path]; files, output streams and clock are untouched. *)
Theorem check_args_return_value {P : Platform}
    (rf x : string) (w w' : world) :
  check_args rf w = (Ret x, w') ->
  x = rf
  /\ w' = with_argv w (prepared_argv rf (argv w))
  /\ PyStr.mem "--report-path" (argv w') = true
  /\ fs w' = fs w /\ stdout w' = stdout w /\ stderr w' = stderr w /\ ticks w' = ticks w.
Proof.
  intros H.
  destruct (check_args_cases rf w) as [E|[[f E]|[(e & f & E)|(_ & _ & E)]]];
    rewrite E in H; try discriminate.
  inversion H; subst x w'. simpl. repeat split.
  unfold prepared_argv.
  set (a1 := if PyStr.mem "--report-path" (argv w) then argv w
             else argv w ++ ["--report-path"; rf]).
  assert (M1 : PyStr.mem "--report-path" a1 = true).
  { subst a1. destruct (PyStr.mem "--report-path" (argv w)) eqn:E1; [exact E1|].
    rewrite mem_app, mem_two. simpl. apply orb_true_r. }
  set (a2 := if PyStr.mem "--config" a1 then a1 ++ ["--config"; "src/gitleaks.toml"] else a1).
  assert (M2 : PyStr.mem "--report-path" a2 = true).
  { subst a2. destruct (PyStr.mem "--config" a1); [|exact M1].
    rewrite mem_app, M1. reflexivity. }
  destruct (PyStr.mem "gitleaks" (tail a2)); [|exact M2].
  rewrite mem_remove_first_ne by discriminate. exact M2.
Qed.

Lemma check_args_return_value_witness :
  let P := Demo.platform (Demo.failing_child "") in
  let w := Demo.start ["prog"; "detect"; "--report-path"; "mine.json"] ∅ Demo.no_fault in
  "report_t.json" = "report_t.json"
  /\ PyStr.mem "--report-path" (argv w) = true.
Proof.
  intros P w.
  destruct (check_args_return_value (P := P) "report_t.json" "report_t.json" w w)
    as (E & _ & M & _).
  - reflexivity.
  - split; [exact E | exact M].
Defined.

(** X5. The redundant tool name is stripped once: when [check_args] returns
    for a report file not itself called [gitleaks], the prepared list holds
    one occurrence of [gitleaks] fewer than the original one if the token
    occurred after the program name, and as many otherwise. *)
Theorem check_args_strips_gitleaks_once {P : Platform} (rf : string) (w : world) :
  (2 <= length (argv w))%nat ->
  PyStr.mem "--help" (argv w) || PyStr.mem "-h" (argv w) = false ->
  rf <> "gitleaks" ->
  let a' := argv (snd (check_args rf w)) in
  (count_occ string_dec a' "gitleaks"
   + (if PyStr.mem "gitleaks" (tail (argv w)) then 1 else 0)
   = count_occ string_dec (argv w) "gitleaks")%nat.
Proof.
  intros Hl Hh Hrf a'. subst a'. rewrite (check_args_prepares rf w Hl Hh). simpl.
  assert (Ha : argv w <> []) by (destruct (argv w); [simpl in Hl; lia | discriminate]).
  assert (E1 : PyStr.mem "gitleaks" ["--report-path"; rf] = false).
  { rewrite mem_two. destruct (String.eqb_spec "gitleaks" rf); [congruence | reflexivity]. }
  unfold prepared_argv.
  set (a1 := if PyStr.mem "--report-path" (argv w) then argv w
             else argv w ++ ["--report-path"; rf]).
  assert (K1 : a1 <> [] /\ PyStr.mem "gitleaks" (tail a1) = PyStr.mem "gitleaks" (tail (argv w))
               /\ count_occ string_dec a1 "gitleaks"
                  = count_occ string_dec (argv w) "gitleaks").
  { subst a1. destruct (PyStr.mem "--report-path" (argv w)); [auto|].
    split; [intros E; apply app_eq_nil in E as [E _]; contradiction|].
    now apply append_other_tokens. }
  destruct K1 as (N1 & T1 & C1).
  set (a2 := if PyStr.mem "--config" a1 then a1 ++ ["--config"; "src/gitleaks.toml"] else a1).
  assert (K2 : PyStr.mem "gitleaks" (tail a2) = PyStr.mem "gitleaks" (tail (argv w))
               /\ count_occ string_dec a2 "gitleaks"
                  = count_occ string_dec (argv w) "gitleaks").
  { subst a2. destruct (PyStr.mem "--config" a1); [|auto].
    destruct (append_other_tokens "gitleaks" a1 ["--config"; "src/gitleaks.toml"] N1)
      as [T C]; [reflexivity|].
    rewrite T, C. auto. }
  destruct K2 as (T2 & C2). rewrite T2.
  destruct (PyStr.mem "gitleaks" (tail (argv w))) eqn:Hm.
  - rewrite <- C2, <- (count_remove_first "gitleaks" a2); [lia|].
    destruct a2 as [|y a2']; [discriminate|]. simpl in T2 |- *.
    rewrite T2. apply orb_true_r.
  - rewrite C2. lia.
Qed.

Lemma check_args_strips_gitleaks_once_witness :
  let P := Demo.platform (Demo.failing_child "") in
  let w := Demo.start ["prog"; "gitleaks"; "detect"; "gitleaks"] ∅ Demo.no_fault in
  (count_occ string_dec (argv (snd (check_args "report_t.json" w))) "gitleaks" + 1
   = 2)%nat.
Proof.
  intros P w.
  apply (check_args_strips_gitleaks_once (P := P) "report_t.json" w);
    [simpl; lia | reflexivity | discriminate].
Defined.

(** X6. Argument preparation neither adds nor drops any token other than
    the five it handles ([--report-path], the report file, [--config],
    [src/gitleaks.toml], [gitleaks]); in particular, for a report file that
    is not itself a verbose flag, [--verbose] or [-v] is in the prepared list
    exactly when the caller passed it. *)
Theorem check_args_keeps_other_tokens {P : Platform} (rf : string) (w : world) :
  (2 <= length (argv w))%nat ->
  PyStr.mem "--help" (argv w) || PyStr.mem "-h" (argv w) = false ->
  let a' := argv (snd (check_args rf w)) in
  (forall x, x <> "--report-path" -> x <> rf -> x <> "--config" ->
             x <> "src/gitleaks.toml" -> x <> "gitleaks" ->
             PyStr.mem x a' = PyStr.mem x (argv w))
  /\ (rf <> "--verbose" -> rf <> "-v" ->
      verbose_requested a' = verbose_requested (argv w)).
Proof.
  intros Hl Hh a'. subst a'. rewrite (check_args_prepares rf w Hl Hh). simpl. split.
  - intros x H1 H2 H3 H4 H5. now apply mem_prepared_argv.
  - intros H1 H2. unfold verbose_requested.
    rewrite !mem_prepared_argv; try discriminate; congruence.
Qed.

Lemma check_args_keeps_other_tokens_witness :
  let P := Demo.platform (Demo.failing_child "") in
  let w := Demo.start ["prog"; "gitleaks"; "detect"; "--config"; "-v"] ∅ Demo.no_fault in
  verbose_requested (argv (snd (check_args "report_t.json" w))) = verbose_requested (argv w).
Proof.
  intros P w.
  apply (check_args_keeps_other_tokens (P := P) "report_t.json" w);
    [simpl; lia | reflexivity | discriminate | discriminate].
Defined.

(** ** The transformer on reports that are not lists of raw findings *)

Section MoreTransformerFacts.
Context {P : Platform}.

Lemma findings_of_items_non_object (items : list json) (item : json) :
  In item items -> (forall m, item <> JObj m) -> findings_of_items items = None.
Proof.
  intros Hin Hno. induction items as [|i items IH]; [contradiction|].
  simpl. destruct Hin as [->|Hin].
  - destruct item; try reflexivity. now destruct (Hno members).
  - destruct (finding_of_item i); [|reflexivity]. now rewrite (IH Hin).
Qed.

Lemma findings_of_items_objects (items : list json) :
  (forall item, In item items -> exists m, item = JObj m) ->
  exists ds, findings_of_items items = Some ds /\ length ds = length items.
Proof.
  induction items as [|i items IH]; intros H; simpl.
  - now exists [].
  - destruct (H i (or_introl eq_refl)) as [m ->].
    destruct IH as (ds & E & L); [intros it Hit; apply H; now right|].
    simpl. rewrite E. eexists. split; [reflexivity|]. simpl. now rewrite L.
Qed.

Lemma dict_get_not_str (key : string) (m : list (string * json)) (d : string) :
  str_or_absent key m = false -> validate_str (dict_get key m (JStr d)) = None.
Proof.
  unfold str_or_absent. induction m as [|[k v] m IH]; simpl; [discriminate|].
  destruct (String.eqb key k); [|exact IH].
  destruct v; try reflexivity. discriminate.
Qed.

Lemma validate_items_unshaped (items : list json) (ds : list finding_dict) :
  findings_of_items items = Some ds ->
  forallb raw_finding_shaped items = false ->
  validate_items ds = None.
Proof.
  revert ds. induction items as [|i items IH]; intros ds; simpl; [discriminate|].
  destruct (finding_of_item i) as [d|] eqn:Ed; [|discriminate].
  destruct (findings_of_items items) as [ds'|] eqn:Eds; [|discriminate].
  intros H Hs. inversion H; subst ds. simpl.
  apply andb_false_iff in Hs as [Hs|Hs].
  - destruct i; try discriminate. simpl in Ed. inversion Ed; subst d.
    unfold validate_item; simpl. simpl in Hs.
    apply andb_false_iff in Hs as [Hs|Hs].
    + now rewrite (dict_get_not_str _ _ _ Hs).
    + rewrite (dict_get_not_str _ _ _ Hs).
      now destruct (validate_str (dict_get "File" members (JStr "unknown"))).
  - rewrite (IH ds' eq_refl Hs). now destruct (validate_item d).
Qed.

(** How the transformation ends once the findings are built. *)
Lemma transform_results_built (p text : string) (v : json) (items : list json)
    (d : finding_dict) (ds : list finding_dict) (w : world) :
  files (fs w) !! p = Some text ->
  json_loads text = Some v ->
  py_iter v = Some items ->
  findings_of_items items = Some (d :: ds) ->
  transform_results p w =
    match validate_items (d :: ds) with
    | None => (Raise ValidationError, w)
    | Some rs =>
        let out := json_dumps (model_dump {| findings := rs |}) in
        let target :=
          generate_filename {| base_name := "transformed_report"; extension := ".json";
                               timestamp := strftime_now (ticks w) |} in
        match wfault (fs w) target with
        | None =>
            (Ret tt,
             {| argv := argv w;
                fs := {| files := <[target := out]> (files (fs w));
                         wfault := wfault (fs w) |};
                stdout := stdout w ++ [out];
                stderr := stderr w;
                ticks := S (ticks w) |})
        | Some e =>
            (Raise e,
             {| argv := argv w; fs := fs w; stdout := stdout w ++ [out];
                stderr := stderr w; ticks := S (ticks w) |})
        end
    end.
Proof.
  intros Hf Hj Hi Hd.
  rewrite (transform_results_loaded _ _ _ _ Hf Hj).
  unfold build_findings. rewrite Hi, Hd.
  unfold bind at 1. unfold ret at 1.
  unfold bind at 1. unfold when at 1, ret at 1.
  unfold bind at 1. unfold GitleaksResults_new.
  destruct (validate_items (d :: ds)) as [rs|]; [|reflexivity].
  unfold ret at 1. unfold_prog. simpl.
  destruct (wfault (fs w) _); reflexivity.
Qed.

Lemma transform_results_nothing_found (p text : string) (v : json) (w : world) :
  files (fs w) !! p = Some text ->
  json_loads text = Some v ->
  py_iter v = Some [] ->
  transform_results p w = (Exit 4, reported no_findings_message 4 p w).
Proof.
  intros Hf Hj Hi.
  rewrite (transform_results_loaded _ _ _ _ Hf Hj).
  unfold build_findings. rewrite Hi. simpl.
  unfold bind at 1. unfold ret at 1. unfold when.
  apply bind_write_error_message.
Qed.

Lemma transform_results_build_fails (p text : string) (v : json) (w : world) :
  files (fs w) !! p = Some text ->
  json_loads text = Some v ->
  transform_results p w =
    match py_iter v with
    | None => (Raise TypeError, w)
    | Some items =>
        match findings_of_items items with
        | None => (Raise AttributeError, w)
        | Some _ => transform_results p w
        end
    end.
Proof.
  intros Hf Hj. destruct (py_iter v) as [items|] eqn:Hi.
  - destruct (findings_of_items items) eqn:Hd; [reflexivity|].
    rewrite (transform_results_loaded _ _ _ _ Hf Hj).
    unfold build_findings. rewrite Hi, Hd. reflexivity.
  - rewrite (transform_results_loaded _ _ _ _ Hf Hj).
    unfold build_findings. rewrite Hi. reflexivity.
Qed.

End MoreTransformerFacts.

Lemma transform_results_absent {P : Platform} (p : string) (w : world) :
  files (fs w) !! p = None ->
  transform_results p w = (Exit 3, reported "Gitleaks report file not found" 3 p w).
Proof.
  intros Hf. unfold transform_results.
  unfold bind at 1. rewrite (path_exists_absent _ _ Hf). simpl.
  unfold when. apply bind_write_error_message.
Qed.

(** Every way [transform_results] can end on a report that exists. *)
Lemma transform_results_present_cases {P : Platform} (p text : string) (w : world) :
  files (fs w) !! p = Some text ->
  let target :=
    generate_filename {| base_name := "transformed_report"; extension := ".json";
                         timestamp := strftime_now (ticks w) |} in
  transform_results p w = (Exit 4, reported no_findings_message 4 p w)
  \/ (exists e, transform_results p w = (Raise e, w))
  \/ (exists e out,
        transform_results p w
        = (Raise e, {| argv := argv w; fs := fs w; stdout := stdout w ++ [out];
                       stderr := stderr w; ticks := S (ticks w) |}))
  \/ (exists out,
        transform_results p w
        = (Ret tt, {| argv := argv w;
                      fs := {| files := <[target := out]> (files (fs w));
                               wfault := wfault (fs w) |};
                      stdout := stdout w ++ [out];
                      stderr := stderr w;
                      ticks := S (ticks w) |})).
Proof.
  intros Hf target.
  destruct (json_loads text) as [v|] eqn:Hj.
  2:{ right. left. exists JSONDecodeError. unfold transform_results.
      unfold bind at 1. rewrite (path_exists_present _ _ _ Hf). simpl.
      unfold bind at 1. unfold when at 1, ret at 1.
      unfold bind at 1. unfold open_read. rewrite Hf.
      unfold bind at 1. unfold json_load. rewrite Hj. reflexivity. }
  destruct (py_iter v) as [items|] eqn:Hi.
  2:{ right. left. exists TypeError.
      rewrite (transform_results_build_fails _ _ _ _ Hf Hj), Hi. reflexivity. }
  destruct (findings_of_items items) as [[|d ds]|] eqn:Hd.
  - left. destruct items as [|i items].
    + exact (transform_results_nothing_found _ _ _ _ Hf Hj Hi).
    + simpl in Hd. destruct (finding_of_item i); [|discriminate].
      destruct (findings_of_items items); discriminate.
  - rewrite (transform_results_built _ _ _ _ _ _ _ Hf Hj Hi Hd).
    destruct (validate_items (d :: ds)) as [rs|].
    + cbv zeta. fold target. destruct (wfault (fs w) target) as [e|].
      * right. right. left. eauto.
      * right. right. right. eauto.
    + right. left. eauto.
  - right. left. exists AttributeError.
    rewrite (transform_results_build_fails _ _ _ _ Hf Hj), Hi, Hd. reflexivity.
Qed.

(** X7. A report whose text parses to [null], a boolean or a number is not
    iterable: [transform_results] raises [TypeError], uncaught, and leaves
    the world as it was. *)
Theorem transform_results_not_iterable {P : Platform}
    (path text : string) (v : json) (w : world) :
  files (fs w) !! path = Some text ->
  json_loads text = Some v ->
  match v with JNull | JBool _ | JInt _ | JFloat _ => True | _ => False end ->
  transform_results path w = (Raise TypeError, w).
Proof.
  intros Hf Hj Hv. rewrite (transform_results_build_fails _ _ _ _ Hf Hj).
  destruct v; simpl in *; try reflexivity; contradiction.
Qed.

(** X8. A report array with an element that is not an object: the
    comprehension fails on that element with [AttributeError], so
    [transform_results] raises and produces nothing at all, however many
    well-formed records come before it: nothing is printed, no file is
    written. *)
Theorem transform_results_non_object_item {P : Platform}
    (path text : string) (items : list json) (item : json) (w : world) :
  files (fs w) !! path = Some text ->
  json_loads text = Some (JArr items) ->
  In item items ->
  (forall m, item <> JObj m) ->
  transform_results path w = (Raise AttributeError, w).
Proof.
  intros Hf Hj Hin Hno. rewrite (transform_results_build_fails _ _ _ _ Hf Hj). simpl.
  now rewrite (findings_of_items_non_object items item Hin Hno).
Qed.

(** X9. A non-empty report array of objects in which some record carries a
    [File] or [Description] that is not a string: building the result model
    fails with [ValidationError]; nothing is printed, no file is written and
    no timestamp is taken. *)
Theorem transform_results_ill_typed_field {P : Platform}
    (path text : string) (items : list json) (w : world) :
  files (fs w) !! path = Some text ->
  json_loads text = Some (JArr items) ->
  (forall item, In item items -> exists m, item = JObj m) ->
  forallb raw_finding_shaped items = false ->
  transform_results path w = (Raise ValidationError, w).
Proof.
  intros Hf Hj Hobj Hs.
  destruct (findings_of_items_objects items Hobj) as (ds & Hd & L).
  destruct ds as [|d ds].
  { destruct items; [discriminate Hs | discriminate L]. }
  rewrite (transform_results_built _ _ _ items _ _ _ Hf Hj eq_refl Hd).
  now rewrite (validate_items_unshaped items (d :: ds) Hd Hs).
Qed.

(** X10. A report whose text parses to a JSON object is iterated by its
    keys: the empty object counts as no findings (exit code 4, ErrorReport
    over the raw report), and an object with at least one key, such as an
    ErrorReport left by an earlier run, raises [AttributeError] with the
    world unchanged. *)
Theorem transform_results_object_document {P : Platform}
    (path text : string) (members : list (string * json)) (w : world) :
  files (fs w) !! path = Some text ->
  json_loads text = Some (JObj members) ->
  transform_results path w =
    match members with
    | [] => write_error_message no_findings_message (value NO_FINDINGS) path w
    | _ :: _ => (Raise AttributeError, w)
    end.
Proof.
  intros Hf Hj. destruct members as [|[k x] members].
  - rewrite write_error_message_run.
    exact (transform_results_nothing_found _ _ _ _ Hf Hj eq_refl).
  - rewrite (transform_results_build_fails _ _ _ _ Hf Hj). reflexivity.
Qed.

Lemma transform_results_not_iterable_witness :
  let P := Bench.platform Bench.quiet_child in
  let w := Demo.start ["prog"] {["r.json" := "5"]} Demo.no_fault in
  transform_results "r.json" w = (Raise TypeError, w).
Proof.
  intros P w.
  apply (transform_results_not_iterable (P := P) "r.json" "5" (JInt 5) w);
    [reflexivity | reflexivity | exact I].
Defined.

Lemma transform_results_non_object_item_witness :
  let P := Bench.platform Bench.quiet_child in
  let doc := JArr [JObj [("File", JStr "a.txt")]; JInt 5] in
  let w := Demo.start ["prog"] {["r.json" := Demo.dumps doc]} Demo.no_fault in
  transform_results "r.json" w = (Raise AttributeError, w).
Proof.
  intros P doc w.
  apply (transform_results_non_object_item (P := P) "r.json" (Demo.dumps doc)
           [JObj [("File", JStr "a.txt")]; JInt 5] (JInt 5) w).
  - reflexivity.
  - reflexivity.
  - simpl. auto.
  - discriminate.
Defined.

Lemma transform_results_ill_typed_field_witness :
  let P := Bench.platform Bench.quiet_child in
  let doc := JArr [JObj [("File", JNull); ("Description", JStr "x")]] in
  let w := Demo.start ["prog"] {["r.json" := Demo.dumps doc]} Demo.no_fault in
  transform_results "r.json" w = (Raise ValidationError, w).
Proof.
  intros P doc w.
  apply (transform_results_ill_typed_field (P := P) "r.json" (Demo.dumps doc)
           [JObj [("File", JNull); ("Description", JStr "x")]] w).
  - reflexivity.
  - reflexivity.
  - intros item [<-|[]]. eauto.
  - reflexivity.
Defined.

Lemma transform_results_object_document_witness :
  let P := Bench.platform Bench.quiet_child in
  let doc := error_report 3 "Gitleaks report file not found" in
  let w := Demo.start ["prog"] {["r.json" := Demo.dumps doc]} Demo.no_fault in
  transform_results "r.json" w = (Raise AttributeError, w).
Proof.
  intros P doc w.
  apply (transform_results_object_document (P := P) "r.json" (Demo.dumps doc)
           [("exit_code", JInt 3); ("error_message", JStr "Gitleaks report file not found")] w);
    reflexivity.
Defined.

(** X11. [transform_results] ends the process only through the Error
    Reporter and only with exit code 3 or 4: with 3 exactly when the report
    path does not exist, with 4 only for a report that exists; either way the
    world left behind is the one the reporter leaves for that message, code
    and the input path. *)
Theorem transform_results_exit_codes {P : Platform} (path : string) (w : world) (c : Z) :
  fst (transform_results path w) = Exit c ->
  (c = 3 /\ files (fs w) !! path = None
   /\ snd (transform_results path w) = reported "Gitleaks report file not found" 3 path w)
  \/ (c = 4 /\ is_Some (files (fs w) !! path)
      /\ snd (transform_results path w) = reported no_findings_message 4 path w).
Proof.
  destruct (files (fs w) !! path) as [text|] eqn:Hf.
  - destruct (transform_results_present_cases path text w Hf)
      as [E|[[e E]|[(e & out & E)|[out E]]]]; rewrite E; simpl; intros H;
      try discriminate.
    right. inversion H. repeat split. eauto.
  - rewrite (transform_results_absent path w Hf). simpl. intros H.
    left. inversion H. repeat split.
Qed.

Lemma transform_results_exit_codes_witness :
  let P := Bench.platform Bench.quiet_child in
  let w := Demo.start ["prog"] {["r.json" := "{}"]} Demo.no_fault in
  (4 = 3 /\ files (fs w) !! "r.json" = None
   /\ snd (transform_results "r.json" w)
      = reported "Gitleaks report file not found" 3 "r.json" w)
  \/ (4 = 4 /\ is_Some (files (fs w) !! "r.json")
      /\ snd (transform_results "r.json" w) = reported no_findings_message 4 "r.json" w).
Proof.
  intros P w.
  apply (transform_results_exit_codes (P := P) "r.json" w 4). reflexivity.
Defined.

(** X12. Whenever [transform_results] returns, it has read the clock once,
    printed one text and written that same text to
    [transformed_report_<timestamp>.json]; no other file, and in particular
    not the raw report when it has another name, has changed. *)
Theorem transform_results_return_effects {P : Platform}
    (path : string) (w w' : world) :
  transform_results path w = (Ret tt, w') ->
  let target :=
    generate_filename {| base_name := "transformed_report"; extension := ".json";
                         timestamp := strftime_now (ticks w) |} in
  exists out,
    stdout w' = stdout w ++ [out]
    /\ files (fs w') = <[target := out]> (files (fs w))
    /\ (path <> target -> files (fs w') !! path = files (fs w) !! path)
    /\ ticks w' = S (ticks w)
    /\ argv w' = argv w /\ stderr w' = stderr w.
Proof.
  intros H target.
  destruct (files (fs w) !! path) as [text|] eqn:Hf.
  - destruct (transform_results_present_cases path text w Hf)
      as [E|[[e E]|[(e & out & E)|[out E]]]]; rewrite E in H; try discriminate.
    inversion H; subst w'. simpl. exists out. fold target. repeat split.
    intros Hne. rewrite lookup_insert_ne by congruence. exact Hf.
  - rewrite (transform_results_absent path w Hf) in H. discriminate.
Qed.

Lemma transform_results_return_effects_witness :
  let P := Demo.platform (Demo.failing_child "") in
  let w := Demo.start ["prog"] {["r.json" := Demo.dumps Demo.two_findings]} Demo.no_fault in
  exists out,
    stdout (snd (transform_results "r.json" w)) = [out]
    /\ files (fs (snd (transform_results "r.json" w)))
       = <["transformed_report_2024-05-01_10:20:30.json" := out]> (files (fs w)).
Proof.
  intros P w.
  destruct (transform_results_return_effects (P := P) "r.json" w
              (snd (transform_results "r.json" w))) as (out & E1 & E2 & _).
  - vm_compute. reflexivity.
  - exists out. split; [exact E1 | exact E2].
Defined.

(** ** The invoker on the other outcomes of the child *)

Section MoreInvokerFacts.
Context {P : Platform}.

(** The handler of [run_gitleaks], whichever way [CalledProcessError] came
    about. *)
Lemma run_gitleaks_raised (args : list string) (rf : string) (w w1 : world) (e : string) :
  subprocess_run args true w = (Raise (CalledProcessError e), w1) ->
  run_gitleaks args rf w =
    match first_match e with
    | Some (code, message) => (Exit code, reported message code rf w1)
    | None =>
        (Ret tt,
         {| argv := argv w1; fs := fs w1; stdout := stdout w1;
            stderr := stderr w1 ++ (if verbose_requested (argv w1) then [e] else []);
            ticks := ticks w1 |})
    end.
Proof.
  intros Hs. unfold run_gitleaks, try_except. rewrite Hs.
  unfold first_match, matching_checks, classification_checks, diagnostic.
  cbv zeta.
  destruct (PyStr.any_in ["unknown flag:"; "flag needs an argument:"]
              (PyStr.first_line (PyStr.strip e))) eqn:H1.
  { unfold when at 1. rewrite bind_write_error_message. reflexivity. }
  destruct (PyStr.any_in ["unknown command"; "for more information about a command."]
              (PyStr.first_line (PyStr.strip e))) eqn:H2.
  { unfold when at 1 2. unfold bind at 1. unfold ret at 1.
    rewrite bind_write_error_message. reflexivity. }
  destruct (PyStr.contains "could not create Git cmd" e) eqn:H3.
  { unfold when at 1 2 3. unfold bind at 1. unfold ret at 1.
    unfold bind at 1. unfold ret at 1.
    rewrite bind_write_error_message. reflexivity. }
  clear Hs. destruct w1 as [a f so se t].
  unfold verbose_requested. unfold_prog. simpl.
  destruct (PyStr.mem "--verbose" a || PyStr.mem "-v" a); simpl.
  - reflexivity.
  - rewrite app_nil_r. reflexivity.
Qed.

Lemma run_gitleaks_completed (args : list string) (rf : string) (w : world) (f : fsys) :
  spawn args (fs w) = (ChildExit0, f) ->
  run_gitleaks args rf w = (Ret tt, set_fs w f).
Proof.
  intros Hs. unfold run_gitleaks, try_except, subprocess_run. rewrite Hs. reflexivity.
Qed.

Lemma run_gitleaks_exit_code (args : list string) (rf : string) (w : world) (c : Z) :
  fst (run_gitleaks args rf w) = Exit c ->
  exists e message,
    first_match e = Some (c, message)
    /\ snd (run_gitleaks args rf w)
       = reported message c rf (set_fs w (snd (spawn args (fs w)))).
Proof.
  destruct (spawn args (fs w)) as [r f] eqn:Hs. simpl.
  assert (Hraised : forall e,
            subprocess_run args true w = (Raise (CalledProcessError e), set_fs w f) ->
            fst (run_gitleaks args rf w) = Exit c ->
            exists e message,
              first_match e = Some (c, message)
              /\ snd (run_gitleaks args rf w) = reported message c rf (set_fs w f)).
  { intros e Hr. rewrite (run_gitleaks_raised args rf w _ e Hr).
    destruct (first_match e) as [[code message]|] eqn:Hm; simpl; intros H;
      [|discriminate].
    inversion H; subst code. eauto. }
  destruct r as [|e|x].
  - rewrite (run_gitleaks_completed args rf w f Hs). discriminate.
  - apply (Hraised e). unfold subprocess_run. now rewrite Hs.
  - destruct x as [| | | |d|s];
      try (unfold run_gitleaks, try_except, subprocess_run; rewrite Hs; discriminate).
    apply (Hraised s). unfold subprocess_run. now rewrite Hs.
Qed.

End MoreInvokerFacts.

(** X13. A child that exits with status 0: [run_gitleaks] returns without
    printing, echoing or writing anything, with or without a verbose flag
    among the arguments; only the files are the ones the child left. *)
Theorem run_gitleaks_success_is_silent {P : Platform}
    (args : list string) (rf : string) (w : world) (f : fsys) :
  spawn args (fs w) = (ChildExit0, f) ->
  run_gitleaks args rf w
  = (Ret tt, {| argv := argv w; fs := f; stdout := stdout w; stderr := stderr w;
                ticks := ticks w |}).
Proof. intros Hs. now rewrite (run_gitleaks_completed args rf w f Hs). Qed.

Lemma run_gitleaks_success_is_silent_witness :
  let P := Bench.platform Bench.quiet_child in
  let w := Demo.start ["prog"; "detect"; "--verbose"] ∅ Demo.no_fault in
  run_gitleaks ["gitleaks"; "detect"; "--verbose"] "report_t.json" w = (Ret tt, w).
Proof.
  intros P w.
  apply (run_gitleaks_success_is_silent (P := P) ["gitleaks"; "detect"; "--verbose"]
           "report_t.json" w (fs w)). reflexivity.
Defined.

(** X14. A child that cannot be started (the exception is not
    [CalledProcessError]): the exception leaves [run_gitleaks] uncaught; no
    ErrorReport is written, nothing is printed or echoed and no exit code of
    the taxonomy is produced. *)
Theorem run_gitleaks_child_not_started {P : Platform}
    (args : list string) (rf : string) (w : world) (e : exn) (f : fsys) :
  spawn args (fs w) = (ChildNotStarted e, f) ->
  (forall s, e <> CalledProcessError s) ->
  run_gitleaks args rf w
  = (Raise e, {| argv := argv w; fs := f; stdout := stdout w; stderr := stderr w;
                 ticks := ticks w |}).
Proof.
  intros Hs He. unfold run_gitleaks, try_except, subprocess_run. rewrite Hs.
  destruct e; try reflexivity. now destruct (He captured_stderr).
Qed.

Lemma run_gitleaks_child_not_started_witness :
  let P := Bench.platform Bench.absent_child in
  let w := Demo.start ["prog"; "detect"] ∅ Demo.no_fault in
  run_gitleaks ["gitleaks"; "detect"] "report_t.json" w
  = (Raise (OSError "[Errno 2] No such file or directory: 'gitleaks'"), w).
Proof.
  intros P w.
  apply (run_gitleaks_child_not_started (P := P) ["gitleaks"; "detect"]
           "report_t.json" w _ (fs w)); [reflexivity | discriminate].
Defined.

(** X15. [run_gitleaks] ends the process only with exit code 1, 2 or 5, and
    only through the Error Reporter on the report file.  With code 1 or 2
    the reported message is a single line (it holds no line break); with
    code 5 it is the fixed no-git message, whatever the child printed. *)
Theorem run_gitleaks_exit_codes {P : Platform}
    (args : list string) (rf : string) (w : world) (c : Z) :
  fst (run_gitleaks args rf w) = Exit c ->
  exists message,
    snd (run_gitleaks args rf w)
      = reported message c rf (set_fs w (snd (spawn args (fs w))))
    /\ ((c = 2 \/ c = 1)
          /\ PyStr.contains (String PyStr.newline EmptyString) message = false
        \/ c = 5 /\ message = no_git_message).
Proof.
  intros H. destruct (run_gitleaks_exit_code args rf w c H) as (e & message & Hm & Hw).
  exists message. split; [exact Hw|].
  destruct (first_match_code e message c Hm) as [[-> ->]|[[-> ->]|[-> ->]]].
  - left. split; [auto|]. apply first_line_single.
  - left. split; [auto|]. apply first_line_single.
  - right. auto.
Qed.

Lemma run_gitleaks_exit_codes_witness :
  let e := "fatal: could not create Git cmd" +:+ String PyStr.newline "more" in
  let P := Demo.platform (Demo.failing_child e) in
  let w := Demo.start ["prog"; "detect"] ∅ Demo.no_fault in
  exists message,
    snd (run_gitleaks ["gitleaks"; "detect"] "report_t.json" w)
      = reported message 5 "report_t.json" w
    /\ ((5 = 2 \/ 5 = 1)
          /\ PyStr.contains (String PyStr.newline EmptyString) message = false
        \/ 5 = 5 /\ message = no_git_message).
Proof.
  intros e P w.
  apply (run_gitleaks_exit_codes (P := P) ["gitleaks"; "detect"] "report_t.json" w 5).
  reflexivity.
Defined.

(** ** The whole run *)

Section MainFacts.
Context {P : Platform}.

Lemma create_with_timestamp_run (b e : string) (w : world) :
  create_with_timestamp b e w
  = (Ret {| base_name := b; extension := e; timestamp := strftime_now (ticks w) |}, tick w).
Proof. reflexivity. Qed.

Lemma transform_results_shaped (p text : string) (items : list json) (w : world) :
  files (fs w) !! p = Some text ->
  json_loads text = Some (JArr items) ->
  (1 <= length items)%nat ->
  forallb raw_finding_shaped items = true ->
  exists rs, length rs = length items
    /\ transform_results p w =
       let out := json_dumps (model_dump {| findings := rs |}) in
       let target :=
         generate_filename {| base_name := "transformed_report"; extension := ".json";
                              timestamp := strftime_now (ticks w) |} in
       match wfault (fs w) target with
       | None =>
           (Ret tt,
            {| argv := argv w;
               fs := {| files := <[target := out]> (files (fs w));
                        wfault := wfault (fs w) |};
               stdout := stdout w ++ [out];
               stderr := stderr w;
               ticks := S (ticks w) |})
       | Some e =>
           (Raise e,
            {| argv := argv w; fs := fs w; stdout := stdout w ++ [out];
               stderr := stderr w; ticks := S (ticks w) |})
       end.
Proof.
  intros Hf Hj Hn Hs.
  destruct (shaped_items items Hs) as (ds & rs & Eds & Ers & Lds & Lrs & _).
  destruct ds as [|d ds]; [simpl in Lds; lia|].
  exists rs. split; [exact Lrs|].
  rewrite (transform_results_built _ _ _ items _ _ _ Hf Hj eq_refl Eds), Ers.
  reflexivity.
Qed.

Lemma transform_results_exit_range (p : string) (w : world) (c : Z) :
  fst (transform_results p w) = Exit c -> c = 3 \/ c = 4.
Proof.
  destruct (files (fs w) !! p) as [text|] eqn:Hf.
  - destruct (transform_results_present_cases p text w Hf)
      as [E|[[e E]|[(e & out & E)|[out E]]]]; rewrite E; simpl; intros H;
      try discriminate.
    inversion H. auto.
  - rewrite (transform_results_absent p w Hf). simpl. intros H. inversion H. auto.
Qed.

(** A call of [run_gitleaks] that returns has left the argument list,
    standard output and the clock alone. *)
Lemma run_gitleaks_return_frame (args : list string) (rf : string) (w w' : world)
    (u : unit) :
  run_gitleaks args rf w = (Ret u, w') ->
  argv w' = argv w /\ stdout w' = stdout w /\ ticks w' = ticks w.
Proof.
  destruct (spawn args (fs w)) as [r f] eqn:Hs.
  assert (Hraised : forall e,
            subprocess_run args true w = (Raise (CalledProcessError e), set_fs w f) ->
            run_gitleaks args rf w = (Ret u, w') ->
            argv w' = argv w /\ stdout w' = stdout w /\ ticks w' = ticks w).
  { intros e Hr. rewrite (run_gitleaks_raised args rf w _ e Hr).
    destruct (first_match e) as [[code message]|]; intros H; [discriminate|].
    inversion H. repeat split. }
  destruct r as [|e|x].
  - rewrite (run_gitleaks_completed args rf w f Hs). intros H. inversion H. repeat split.
  - apply (Hraised e). unfold subprocess_run. now rewrite Hs.
  - destruct x as [| | | |d|s];
      try (unfold run_gitleaks, try_except, subprocess_run; rewrite Hs; discriminate).
    apply (Hraised s). unfold subprocess_run. now rewrite Hs.
Qed.

End MainFacts.

(** X16. The successful run, end to end: with at least one argument and no
    help flag, a child that exits with status 0 and leaves at the initial
    report name [report_<t0>.json] an array of N >= 1 raw findings, and an
    output file that can be opened, [main] returns normally (exit status 0).
    It has printed the serialized result of N findings once and written the
    same text to [transformed_report_<t1>.json], where [t1] is the second
    clock reading; the raw report is still there with its text. *)
Theorem main_scan_with_findings {P : Platform}
    (w : world) (f : fsys) (text : string) (items : list json) :
  (2 <= length (argv w))%nat ->
  PyStr.mem "--help" (argv w) || PyStr.mem "-h" (argv w) = false ->
  let rf := generate_filename {| base_name := "report"; extension := ".json";
                                 timestamp := strftime_now (ticks w) |} in
  let a' := prepared_argv rf (argv w) in
  let target := generate_filename {| base_name := "transformed_report"; extension := ".json";
                                     timestamp := strftime_now (S (ticks w)) |} in
  spawn ("gitleaks" :: tail a') (fs w) = (ChildExit0, f) ->
  files f !! rf = Some text ->
  json_loads text = Some (JArr items) ->
  (1 <= length items)%nat ->
  forallb raw_finding_shaped items = true ->
  wfault f target = None ->
  exists rs : list GitleaksResultItem,
    length rs = length items
    /\ main w
       = (Ret tt,
          {| argv := a';
             fs := {| files := <[target := json_dumps (model_dump {| findings := rs |})]>
                                 (files f);
                      wfault := wfault f |};
             stdout := stdout w ++ [json_dumps (model_dump {| findings := rs |})];
             stderr := stderr w;
             ticks := S (S (ticks w)) |})
    /\ files (fs (snd (main w))) !! rf = Some text.
Proof.
  intros Hl Hh rf a' target Hs Hf Hj Hn Hsh Hw.
  assert (E : main w = transform_results rf (set_fs (with_argv (tick w) a') f)).
  { rewrite (main_prepared w Hl Hh). fold rf a'. unfold bind.
    rewrite (run_gitleaks_completed _ rf (with_argv (tick w) a') f Hs). reflexivity. }
  destruct (transform_results_shaped rf text items (set_fs (with_argv (tick w) a') f)
              Hf Hj Hn Hsh) as (rs & L & T).
  exists rs. split; [exact L|].
  assert (E' : main w
               = (Ret tt,
                  {| argv := a';
                     fs := {| files := <[target := json_dumps (model_dump {| findings := rs |})]>
                                         (files f);
                              wfault := wfault f |};
                     stdout := stdout w ++ [json_dumps (model_dump {| findings := rs |})];
                     stderr := stderr w;
                     ticks := S (S (ticks w)) |})).
  { rewrite E, T. cbv zeta. simpl. fold target. rewrite Hw. reflexivity. }
  split; [exact E'|]. rewrite E'. simpl.
  rewrite lookup_insert_ne; [exact Hf|]. intros Heq. symmetry in Heq.
  exact (report_names_apart _ _ Heq).
Qed.

Lemma main_scan_with_findings_witness :
  let P :=
    Demo.platform
      (Bench.writing_child "report_2024-05-01_10:20:30.json" (Demo.dumps Demo.two_findings)) in
  let w := Demo.start ["prog"; "detect"; "--no-git"] ∅ Demo.no_fault in
  exists rs : list GitleaksResultItem, length rs = 2%nat /\ fst (main w) = Ret tt.
Proof.
  intros P w.
  destruct (main_scan_with_findings (P := P) w
              {| files := {["report_2024-05-01_10:20:30.json" := Demo.dumps Demo.two_findings]};
                 wfault := Demo.no_fault |}
              (Demo.dumps Demo.two_findings)
              [ JObj [("File", JStr "a.txt"); ("StartLine", JInt 1); ("EndLine", JInt 1);
                      ("Description", JStr "x")];
                JObj [("File", JStr "b.txt"); ("StartLine", JInt 5); ("EndLine", JInt 6);
                      ("Description", JStr "y")] ])
    as (rs & L & E & _).
  - simpl. lia.
  - reflexivity.
  - reflexivity.
  - reflexivity.
  - reflexivity.
  - simpl. lia.
  - reflexivity.
  - reflexivity.
  - exists rs. split; [exact L|]. rewrite E. reflexivity.
Defined.

(** X17. A run whose scanner step returns (the child exited with status 0,
    or failed with an error text no check recognises) but leaves no file at
    the initial report name, for instance because the caller's own
    [--report-path] sent the findings elsewhere: [main] ends with exit code
    3 (FILE_NOT_FOUND), and the ErrorReport is written to the initial report
    name when that file can be opened. *)
Theorem main_report_missing {P : Platform} (w : world) (r : child_result) (f : fsys) :
  (2 <= length (argv w))%nat ->
  PyStr.mem "--help" (argv w) || PyStr.mem "-h" (argv w) = false ->
  let rf := generate_filename {| base_name := "report"; extension := ".json";
                                 timestamp := strftime_now (ticks w) |} in
  let a' := prepared_argv rf (argv w) in
  spawn ("gitleaks" :: tail a') (fs w) = (r, f) ->
  match r with
  | ChildExit0 => True
  | ChildNonZero e => first_match e = None
  | ChildNotStarted _ => False
  end ->
  files f !! rf = None ->
  fst (main w) = Exit 3
  /\ (wfault f rf = None ->
      files (fs (snd (main w))) !! rf
      = Some (json_dumps (error_report 3 "Gitleaks report file not found"))).
Proof.
  intros Hl Hh rf a' Hs Hr Hf.
  assert (E : exists w2, fs w2 = f
                /\ main w = (Exit 3, reported "Gitleaks report file not found" 3 rf w2)).
  { rewrite (main_prepared w Hl Hh). fold rf a'. unfold bind.
    destruct r as [|e|x]; [| |contradiction].
    - rewrite (run_gitleaks_completed _ rf (with_argv (tick w) a') f Hs).
      exists (set_fs (with_argv (tick w) a') f). split; [reflexivity|].
      now apply transform_results_absent.
    - rewrite (run_gitleaks_failed _ rf (with_argv (tick w) a') e f Hs), Hr.
      eexists. split; [|apply transform_results_absent; exact Hf]. reflexivity. }
  destruct E as (w2 & Hw2 & E). rewrite E. simpl. split; [reflexivity|].
  intros Hw. apply reported_written. now rewrite Hw2.
Qed.

Lemma main_report_missing_witness :
  let P := Bench.platform (Bench.writing_child "mine.json" "[]") in
  let w := Demo.start ["prog"; "detect"; "--report-path"; "mine.json"] ∅ Demo.no_fault in
  fst (main w) = Exit 3.
Proof.
  intros P w.
  apply (main_report_missing (P := P) w ChildExit0
           {| files := {["mine.json" := "[]"]}; wfault := Demo.no_fault |});
    [simpl; lia | reflexivity | reflexivity | exact I | reflexivity].
Defined.

(** X18. A run whose child fails with an error text that a check
    recognises ends in the Error Reporter with that check's message and exit
    code, and the ErrorReport goes to the initial report name
    [report_<t0>.json]; the transformation step is never reached. *)
Theorem main_classified_failure {P : Platform}
    (w : world) (e : string) (f : fsys) (code : Z) (message : string) :
  (2 <= length (argv w))%nat ->
  PyStr.mem "--help" (argv w) || PyStr.mem "-h" (argv w) = false ->
  let rf := generate_filename {| base_name := "report"; extension := ".json";
                                 timestamp := strftime_now (ticks w) |} in
  let a' := prepared_argv rf (argv w) in
  spawn ("gitleaks" :: tail a') (fs w) = (ChildNonZero e, f) ->
  first_match e = Some (code, message) ->
  main w
  = (Exit code,
     reported message code rf
       {| argv := a'; fs := f; stdout := stdout w; stderr := stderr w;
          ticks := S (ticks w) |}).
Proof.
  intros Hl Hh rf a' Hs Hm.
  rewrite (main_prepared w Hl Hh). fold rf a'. unfold bind.
  rewrite (run_gitleaks_failed _ rf (with_argv (tick w) a') e f Hs), Hm. reflexivity.
Qed.

Lemma main_classified_failure_witness :
  let e := "Error: unknown command" +:+ String PyStr.newline "Run 'gitleaks --help'" in
  let P := Demo.platform (Demo.failing_child e) in
  let w := Demo.start ["prog"; "scan"] ∅ Demo.no_fault in
  fst (main w) = Exit 1.
Proof.
  intros e P w.
  rewrite (main_classified_failure (P := P) w e (fs w) 1 "Error: unknown command");
    [reflexivity | simpl; lia | reflexivity | reflexivity | reflexivity].
Defined.

(** X19. How a run can end.  Whenever [main] ends in [SystemExit], the code
    is 0, 1, 2, 3, 4 or 5, and [SystemExit(0)] comes only from the help
    branch, with a help flag among the arguments.  Whenever [main] instead
    returns normally (the process then ends with status 0 by falling off the
    end), there were at least two entries in the argument list and no help
    flag, one text has been printed, and that text is in
    [transformed_report_<t1>.json], [t1] being the second clock reading. *)
Theorem main_exit_codes {P : Platform} (w : world) :
  (forall c, fst (main w) = Exit c ->
     (c = 0 /\ PyStr.mem "--help" (argv w) || PyStr.mem "-h" (argv w) = true)
     \/ c = 1 \/ c = 2 \/ c = 3 \/ c = 4 \/ c = 5)
  /\ (forall u, fst (main w) = Ret u ->
       (2 <= length (argv w))%nat
       /\ PyStr.mem "--help" (argv w) || PyStr.mem "-h" (argv w) = false
       /\ exists out,
            stdout (snd (main w)) = stdout w ++ [out]
            /\ files (fs (snd (main w)))
                 !! generate_filename {| base_name := "transformed_report";
                                         extension := ".json";
                                         timestamp := strftime_now (S (ticks w)) |}
               = Some out).
Proof.
  destruct (Nat.ltb (length (argv w)) 2) eqn:Hl.
  { apply Nat.ltb_lt in Hl. rewrite (main_no_arguments w Hl). simpl.
    split; [intros c H; inversion H; auto 8 | intros u H; discriminate H]. }
  apply Nat.ltb_ge in Hl.
  destruct (PyStr.mem "--help" (argv w) || PyStr.mem "-h" (argv w)) eqn:Hh.
  { assert (E : main w =
                  match spawn ["gitleaks"; "--help"] (fs (tick w)) with
                  | (ChildNotStarted e, f) => (Raise e, set_fs (tick w) f)
                  | (_, f) => (Exit 0, set_fs (tick w) f)
                  end).
    { unfold main. unfold bind at 1. rewrite create_with_timestamp_run.
      unfold bind at 1.
      rewrite (check_args_help_run _ (tick w) Hl Hh).
      destruct (spawn ["gitleaks"; "--help"] (fs (tick w))) as [[|s|e] f]; reflexivity. }
    rewrite E.
    destruct (spawn ["gitleaks"; "--help"] (fs (tick w))) as [[|s|e] f]; simpl;
      (split; [intros c H; inversion H; auto 8 | intros u H; discriminate H]). }
  rewrite (main_prepared w Hl Hh). cbv zeta.
  set (rf := generate_filename {| base_name := "report"; extension := ".json";
                                  timestamp := strftime_now (ticks w) |}).
  set (a' := prepared_argv rf (argv w)).
  split.
  - intros c H.
    apply bind_exit_inv in H as [H|(u & w' & _ & H)].
    + destruct (run_gitleaks_exit_code _ _ _ _ H) as (e & message & Hm & _).
      destruct (first_match_code e message c Hm) as [[-> _]|[[-> _]|[-> _]]]; auto 8.
    + apply transform_results_exit_range in H as [->| ->]; auto 8.
  - intros u. unfold bind.
    destruct (run_gitleaks ("gitleaks" :: tail a') rf (with_argv (tick w) a'))
      as [[u'|c|e] w2] eqn:Hr; simpl; try discriminate.
    destruct (run_gitleaks_return_frame _ _ _ _ _ Hr) as (_ & Hso & Ht).
    simpl in Hso, Ht. intros H. split; [exact Hl|]. split; [reflexivity|].
    destruct (files (fs w2) !! rf) as [text|] eqn:Hf.
    + destruct (transform_results_present_cases rf text w2 Hf)
        as [E|[[e E]|[(e & out & E)|[out E]]]]; rewrite E in H |- *;
        try discriminate.
      exists out. simpl. rewrite Hso, Ht. split; [reflexivity|].
      apply lookup_insert_eq.
    + rewrite (transform_results_absent rf w2 Hf) in H. discriminate.
Qed.

Lemma main_exit_codes_witness :
  let P := Bench.platform Bench.quiet_child in
  let w := Demo.start ["prog"; "detect"] ∅ Demo.no_fault in
  (3 = 0 /\ PyStr.mem "--help" (argv w) || PyStr.mem "-h" (argv w) = true)
  \/ 3 = 1 \/ 3 = 2 \/ 3 = 3 \/ 3 = 4 \/ 3 = 5.
Proof.
  intros P w.
  apply (proj1 (main_exit_codes (P := P) w) 3). reflexivity.
Defined.
